(** * Billing ledger: statement period, selection and totals

    A shallow embedding of [streamlit_transaction_manager.py]: the
    billing-period computation of [export_pdf], its SQL selection of line
    items, the debit total, the description column, and
    [delete_transaction].

    The script leans on two libraries. Their behaviour is written out
    here as far as the script uses it:
    - Python's [datetime]: proleptic Gregorian dates with years
      [MINYEAR..MAXYEAR], [replace], the constructor's range check,
      [+ timedelta(days=n)] through ordinals, [isoformat], comparison;
    - SQLite: a table is the list of its rows in rowid order, [SELECT ...
      WHERE] keeps the rows that satisfy the condition, [DELETE ... WHERE]
      drops them, and TEXT values compare bytewise. *)

From Stdlib Require Import ZArith List Bool Lia String Ascii.
Import ListNotations.
Local Open Scope Z_scope.

(** ** A small error monad: Python exceptions as [None] *)

Definition bind {A B : Type} (m : option A) (k : A -> option B) : option B :=
  match m with
  | Some a => k a
  | None => None
  end.

Notation "x <- m ;; k" := (bind m (fun x => k))
  (at level 61, m at next level, right associativity).

(** ** Python's [datetime] *)

Module PyDatetime.

Definition MINYEAR : Z := 1.
Definition MAXYEAR : Z := 9999.
Definition MAXORDINAL : Z := 3652059.

Definition is_leap (year : Z) : bool :=
  (year mod 4 =? 0) && (negb (year mod 100 =? 0) || (year mod 400 =? 0)).

(** [_DAYS_IN_MONTH], indexed by month; index 0 is the placeholder -1. *)
Definition DAYS_IN_MONTH (month : Z) : Z :=
  match month with
  | 1 => 31 | 2 => 28 | 3 => 31 | 4 => 30 | 5 => 31 | 6 => 30
  | 7 => 31 | 8 => 31 | 9 => 30 | 10 => 31 | 11 => 30 | 12 => 31
  | _ => -1
  end.

(** [_DAYS_BEFORE_MONTH]: days of a common year before the month. *)
Definition DAYS_BEFORE_MONTH (month : Z) : Z :=
  match month with
  | 1 => 0 | 2 => 31 | 3 => 59 | 4 => 90 | 5 => 120 | 6 => 151
  | 7 => 181 | 8 => 212 | 9 => 243 | 10 => 273 | 11 => 304 | 12 => 334
  | _ => -1
  end.

Definition b2z (b : bool) : Z := if b then 1 else 0.

Definition days_before_year (year : Z) : Z :=
  let y := year - 1 in
  y * 365 + y / 4 - y / 100 + y / 400.

Definition days_in_month (year month : Z) : Z :=
  if (month =? 2) && is_leap year then 29 else DAYS_IN_MONTH month.

Definition days_before_month (year month : Z) : Z :=
  DAYS_BEFORE_MONTH month + b2z ((2 <? month) && is_leap year).

Definition ymd2ord (year month day : Z) : Z :=
  days_before_year year + days_before_month year month + day.

Definition DI400Y : Z := 146097.
Definition DI100Y : Z := 36524.
Definition DI4Y : Z := 1461.

(** [_ord2ymd]: the inverse of [ymd2ord]. Python's [divmod] is floor
    division, which is [Z.div] and [Z.modulo]. *)
Definition ord2ymd (n : Z) : Z * Z * Z :=
  let n := n - 1 in
  let n400 := n / DI400Y in
  let n := n mod DI400Y in
  let year := n400 * 400 + 1 in
  let n100 := n / DI100Y in
  let n := n mod DI100Y in
  let n4 := n / DI4Y in
  let n := n mod DI4Y in
  let n1 := n / 365 in
  let n := n mod 365 in
  let year := year + (n100 * 100 + n4 * 4 + n1) in
  if (n1 =? 4) || (n100 =? 4) then (year - 1, 12, 31)
  else
    let leapyear := (n1 =? 3) && (negb (n4 =? 24) || (n100 =? 3)) in
    let month := Z.shiftr (n + 50) 5 in
    let preceding := DAYS_BEFORE_MONTH month + b2z ((2 <? month) && leapyear) in
    let '(month, preceding) :=
      if n <? preceding
      then (month - 1,
            preceding - (DAYS_IN_MONTH (month - 1)
                         + b2z ((month - 1 =? 2) && leapyear)))
      else (month, preceding) in
    (year, month, n - preceding + 1).

Record datetime : Type := mkDatetime {
  year : Z; month : Z; day : Z;
  hour : Z; minute : Z; second : Z; microsecond : Z
}.

(** [_check_date_fields] and [_check_time_fields]. *)
Definition check_date_fields (y m d : Z) : bool :=
  (MINYEAR <=? y) && (y <=? MAXYEAR) && (1 <=? m) && (m <=? 12)
  && (1 <=? d) && (d <=? days_in_month y m).

Definition check_time_fields (hh mm ss us : Z) : bool :=
  (0 <=? hh) && (hh <=? 23) && (0 <=? mm) && (mm <=? 59)
  && (0 <=? ss) && (ss <=? 59) && (0 <=? us) && (us <=? 999999).

Definition valid (t : datetime) : bool :=
  check_date_fields (year t) (month t) (day t)
  && check_time_fields (hour t) (minute t) (second t) (microsecond t).

(** The constructor [datetime(year, month, day, hour, minute, second,
    microsecond)]: [ValueError] when a field is out of range. *)
Definition new (y m d hh mm ss us : Z) : option datetime :=
  if check_date_fields y m d && check_time_fields hh mm ss us
  then Some (mkDatetime y m d hh mm ss us)
  else None.

(** [self.replace(year=..., month=..., day=...)]: fields that are not
    given keep their value, and the result goes through the constructor. *)
Definition replace (t : datetime) (y m d : option Z) : option datetime :=
  new (match y with Some v => v | None => year t end)
      (match m with Some v => v | None => month t end)
      (match d with Some v => v | None => day t end)
      (hour t) (minute t) (second t) (microsecond t).

Definition toordinal (t : datetime) : Z :=
  ymd2ord (year t) (month t) (day t).

(** [self + timedelta(days=n)]: the sum is normalised as a timedelta of
    [toordinal] days and the seconds of the day; [OverflowError] when the
    day count leaves [1..MAXORDINAL]. *)
Definition add_days (t : datetime) (n : Z) : option datetime :=
  let days := toordinal t + n in
  let seconds := hour t * 3600 + minute t * 60 + second t in
  let hh := seconds / 3600 in
  let rem := seconds mod 3600 in
  let mm := rem / 60 in
  let ss := rem mod 60 in
  if (0 <? days) && (days <=? MAXORDINAL)
  then let '(y, m, d) := ord2ymd days in
       Some (mkDatetime y m d hh mm ss (microsecond t))
  else None.

(** The calendar date of a datetime, [self.date()], as a triple. *)
Definition date (t : datetime) : Z * Z * Z := (year t, month t, day t).

(** Comparison is that of the field tuples, most significant first. *)
Fixpoint lex_compare (a b : list Z) : comparison :=
  match a, b with
  | [], [] => Eq
  | [], _ :: _ => Lt
  | _ :: _, [] => Gt
  | x :: a', y :: b' =>
      match x ?= y with
      | Eq => lex_compare a' b'
      | c => c
      end
  end.

Definition fields (t : datetime) : list Z :=
  [year t; month t; day t; hour t; minute t; second t; microsecond t].

Definition cmp (a b : datetime) : comparison := lex_compare (fields a) (fields b).
Definition le (a b : datetime) : bool :=
  match cmp a b with Gt => false | _ => true end.
Definition lt (a b : datetime) : bool :=
  match cmp a b with Lt => true | _ => false end.

Definition date_cmp (a b : Z * Z * Z) : comparison :=
  let '(y1, m1, d1) := a in
  let '(y2, m2, d2) := b in
  lex_compare [y1; m1; d1] [y2; m2; d2].
Definition date_le (a b : Z * Z * Z) : bool :=
  match date_cmp a b with Gt => false | _ => true end.
Definition date_lt (a b : Z * Z * Z) : bool :=
  match date_cmp a b with Lt => true | _ => false end.

End PyDatetime.

(** [isoformat()]: [%04d-%02d-%02dT%02d:%02d:%02d], followed by [.%06d]
    when the microsecond is not zero. *)
Module Iso.

Definition digit (n : Z) : ascii :=
  ascii_of_N (48 + Z.to_N (n mod 10)).

(** [%0wd] of a number [0 <= n < 10^w]: its [w] decimal digits. *)
Fixpoint zpad (w : nat) (n : Z) : string :=
  match w with
  | O => EmptyString
  | S w' => (zpad w' (n / 10) ++ String (digit n) EmptyString)%string
  end.

Definition isoformat (t : PyDatetime.datetime) : string :=
  (zpad 4 (PyDatetime.year t) ++ "-" ++ zpad 2 (PyDatetime.month t) ++ "-"
   ++ zpad 2 (PyDatetime.day t) ++ "T"
   ++ zpad 2 (PyDatetime.hour t) ++ ":" ++ zpad 2 (PyDatetime.minute t) ++ ":"
   ++ zpad 2 (PyDatetime.second t)
   ++ (if (PyDatetime.microsecond t =? 0)%Z then EmptyString
       else "." ++ zpad 6 (PyDatetime.microsecond t)))%string.

End Iso.

(** ** Python's [str] on stored text

    SQLite keeps TEXT as UTF-8 and Python reads it back as a [str], a
    sequence of code points. A text is modelled by the string of its
    UTF-8 bytes; a code point is a byte that is not a continuation byte
    ([10xxxxxx]) together with the continuation bytes that follow it. *)
Module PyStr.

Definition continuation (c : ascii) : bool :=
  ((128 <=? N_of_ascii c) && (N_of_ascii c <? 192))%N.

(** [len(s)]: the number of code points. *)
Fixpoint len (s : string) : nat :=
  match s with
  | EmptyString => O
  | String c s' => if continuation c then len s' else S (len s')
  end.

(** [s[:n]]: the first [n] code points, all of [s] when it has fewer. *)
Fixpoint take (n : nat) (s : string) : string :=
  match s with
  | EmptyString => EmptyString
  | String c s' =>
      if continuation c then String c (take n s')
      else match n with
           | O => EmptyString
           | S n' => String c (take n' s')
           end
  end.

End PyStr.

(** ** The billing period of [export_pdf] (lines 79-91) *)

Import PyDatetime.

(** [bill_start]: the 13th of this month from the 13th on, the 13th of
    the month before otherwise. [today] is the value of
    [datetime.today()], so it carries a time of day, and [replace] keeps
    it. *)
Definition bill_start (today : datetime) : option datetime :=
  if 13 <=? day today then
    replace today None None (Some 13)
  else if month today =? 1 then
    replace today (Some (year today - 1)) (Some 12) (Some 13)
  else
    replace today None (Some (month today - 1)) (Some 13).

Definition next_month (start : datetime) : Z := month start mod 12 + 1.

Definition bill_end (start : datetime) : option datetime :=
  let year := year start + (if next_month start =? 1 then 1 else 0) in
  new year (next_month start) 12 0 0 0 0.

Definition due_date (start : datetime) : option datetime :=
  add_days start 50.

Record BillingPeriod : Type := mkPeriod {
  p_start : datetime;
  p_end : datetime;
  p_due : datetime
}.

(** The three assignments in the order the script runs them: an
    exception in one of them ends the computation. *)
Definition billing_period (today : datetime) : option BillingPeriod :=
  s <- bill_start today ;;
  e <- bill_end s ;;
  d <- due_date s ;;
  Some (mkPeriod s e d).

(** ** The ledger store and the statement *)

Section Ledger.

(** The [amount] column is REAL. Its arithmetic is kept abstract: a zero,
    which is what [sum] starts from, and an addition. *)
Variable amount : Type.
Variable zero : amount.
Variable add : amount -> amount -> amount.

(** [sum(iterable)]: start from zero and add the items left to right. *)
Definition py_sum (l : list amount) : amount := fold_left add l zero.

(** A row of [transactions]. *)
Record transaction : Type := mkTransaction {
  tx_id : Z;
  tx_user_id : Z;
  tx_amount : amount;
  tx_type : string;
  tx_description : string;
  tx_timestamp : string
}.

(** A row of [users]: [user[0]] .. [user[3]]. *)
Record user : Type := mkUser {
  u_id : Z;
  u_name : string;
  u_email : string;
  u_password : string
}.

(** The database: each table is the list of its rows in rowid order. *)
Record db : Type := mkDb {
  users : list user;
  transactions : list transaction
}.

(** A row of the statement query, [SELECT amount, type, description,
    timestamp]: [t[0]] .. [t[3]]. *)
Record line_item : Type := mkLine {
  li_amount : amount;
  li_type : string;
  li_description : string;
  li_timestamp : string
}.

Definition to_line (t : transaction) : line_item :=
  mkLine (tx_amount t) (tx_type t) (tx_description t) (tx_timestamp t).

(** Programs on the database: the state is threaded, and an exception
    is [None]. *)
Definition sql (A : Type) : Type := db -> option (A * db).

Definition sql_ret {A : Type} (a : A) : sql A := fun s => Some (a, s).

Definition sql_bind {A B : Type} (m : sql A) (k : A -> sql B) : sql B :=
  fun s => match m s with
           | Some (a, s') => k a s'
           | None => None
           end.

Definition sql_lift {A : Type} (m : option A) : sql A :=
  fun s => match m with
           | Some a => Some (a, s)
           | None => None
           end.

(** [x BETWEEN lo AND hi] on TEXT values: [lo <= x AND x <= hi] in the
    bytewise order of strings. *)
Definition between (x lo hi : string) : bool :=
  String.leb lo x && String.leb x hi.

(** The WHERE clause of the statement query (line 95). *)
Definition in_statement (uid : Z) (lo hi : string) (t : transaction) : bool :=
  (tx_user_id t =? uid) && between (tx_timestamp t) lo hi.

(** [cursor.execute(SELECT ...)] followed by [cursor.fetchall()]
    (lines 93-98): a read, the database is left as it is. *)
Definition select_statement (uid : Z) (lo hi : string) : sql (list line_item) :=
  fun s => Some (map to_line (filter (in_statement uid lo hi) (transactions s)), s).

Definition is_debit (t : line_item) : bool := String.eqb (li_type t) "debit".

(** Line 99: [sum(t[0] for t in transactions if t[1] == 'debit')]. *)
Definition total_due (items : list line_item) : amount :=
  py_sum (map li_amount (filter is_debit items)).

(** Line 115: the description cell of a row,
    [(t[2][:30] + '...') if len(t[2]) > 33 else t[2]]. *)
Definition description (t : line_item) : string :=
  if (33 <? PyStr.len (li_description t))%nat
  then (PyStr.take 30 (li_description t) ++ "...")%string
  else li_description t.

(** What [export_pdf] computes before it draws the document. *)
Record statement : Type := mkStatement {
  st_user : user;
  st_period : BillingPeriod;
  st_items : list line_item;
  st_total_due : amount
}.

(** [export_pdf(user)], with the reading of the clock made a parameter.
    The drawing of the PDF and the download link are left out: they do
    not touch the database. *)
Definition export_pdf (u : user) (today : datetime) : sql statement :=
  sql_bind (sql_lift (billing_period today)) (fun p =>
  sql_bind (select_statement (u_id u)
              (Iso.isoformat (p_start p)) (Iso.isoformat (p_end p))) (fun items =>
  sql_ret (mkStatement u p items (total_due items)))).

(** [delete_transaction(user_id, transaction_id)] (lines 65-68):
    [DELETE FROM transactions WHERE id = ? AND user_id = ?]. *)
Definition delete_match (uid tid : Z) (t : transaction) : bool :=
  (tx_id t =? tid) && (tx_user_id t =? uid).

Definition delete_transaction (uid tid : Z) : sql unit :=
  fun s => Some (tt, mkDb (users s)
                       (filter (fun t => negb (delete_match uid tid t))
                               (transactions s))).

End Ledger.

(** * Calendar facts *)

Module Calendar.

Ltac zdiv := Z.div_mod_to_equations; lia.

(** Evaluate the month tables and the tests on literals, and nothing else. *)
Ltac tables :=
  cbv [DAYS_IN_MONTH DAYS_BEFORE_MONTH b2z andb orb negb
       Z.eqb Z.ltb Z.leb Z.compare Pos.eqb Pos.compare Pos.compare_cont] in *.

(** A bounded universal statement over [0 <= n < bound], decided by
    running the check on every [n]. *)
Definition all_below (bound : nat) (p : Z -> bool) : bool :=
  forallb p (map Z.of_nat (seq 0 bound)).

Lemma all_below_spec (bound : nat) (p : Z -> bool) :
  all_below bound p = true ->
  forall n, 0 <= n < Z.of_nat bound -> p n = true.
Proof.
  unfold all_below. rewrite forallb_forall. intros H n Hn.
  apply H. apply in_map_iff. exists (Z.to_nat n). split.
  - lia.
  - apply in_seq. lia.
Qed.

Lemma days_before_year_succ (y : Z) :
  days_before_year (y + 1) = days_before_year y + 365 + b2z (is_leap y).
Proof.
  unfold days_before_year, is_leap, b2z.
  replace (y + 1 - 1) with y by lia.
  destruct (y mod 4 =? 0) eqn:E4; destruct (y mod 100 =? 0) eqn:E100;
    destruct (y mod 400 =? 0) eqn:E400; simpl;
    rewrite ?Z.eqb_eq, ?Z.eqb_neq in *; zdiv.
Qed.

Lemma days_before_year_mono (a b : Z) :
  a <= b -> days_before_year a <= days_before_year b.
Proof. unfold days_before_year. intros H. zdiv. Qed.

(** The day of the year of a date. *)
Definition day_of_year (y m d : Z) : Z := days_before_month y m + d.

Lemma months (m : Z) :
  1 <= m <= 12 ->
  m = 1 \/ m = 2 \/ m = 3 \/ m = 4 \/ m = 5 \/ m = 6 \/
  m = 7 \/ m = 8 \/ m = 9 \/ m = 10 \/ m = 11 \/ m = 12.
Proof. lia. Qed.

Ltac each_month m H :=
  destruct (months m H) as
    [?|[?|[?|[?|[?|[?|[?|[?|[?|[?|[?|?]]]]]]]]]]]; subst m.

Lemma check_date_fields_spec (y m d : Z) :
  check_date_fields y m d = true <->
  MINYEAR <= y <= MAXYEAR /\ 1 <= m <= 12 /\ 1 <= d <= days_in_month y m.
Proof.
  unfold check_date_fields.
  rewrite !andb_true_iff, !Z.leb_le. tauto.
Qed.

Lemma day_of_year_bounds (y m d : Z) :
  1 <= m <= 12 -> 1 <= d <= days_in_month y m ->
  1 <= day_of_year y m d <= 365 + b2z (is_leap y).
Proof.
  intros Hm Hd. unfold day_of_year, days_before_month, days_in_month in *.
  each_month m Hm; destruct (is_leap y); tables; lia.
Qed.

Lemma day_of_year_mono (y m1 d1 m2 d2 : Z) :
  1 <= m1 <= 12 -> 1 <= d1 <= days_in_month y m1 ->
  1 <= m2 <= 12 -> 1 <= d2 <= days_in_month y m2 ->
  m1 < m2 -> day_of_year y m1 d1 < day_of_year y m2 d2.
Proof.
  intros Hm1 Hd1 Hm2 Hd2 Hlt.
  unfold day_of_year, days_before_month, days_in_month in *.
  each_month m1 Hm1; each_month m2 Hm2; try lia;
    destruct (is_leap y); tables; lia.
Qed.

(** [ymd2ord] is strictly increasing in the order of dates. *)
Lemma ymd2ord_lt (y1 m1 d1 y2 m2 d2 : Z) :
  1 <= m1 <= 12 -> 1 <= d1 <= days_in_month y1 m1 ->
  1 <= m2 <= 12 -> 1 <= d2 <= days_in_month y2 m2 ->
  date_lt (y1, m1, d1) (y2, m2, d2) = true ->
  ymd2ord y1 m1 d1 < ymd2ord y2 m2 d2.
Proof.
  intros Hm1 Hd1 Hm2 Hd2. unfold date_lt, date_cmp, lex_compare, ymd2ord.
  pose proof (day_of_year_bounds y1 m1 d1 Hm1 Hd1) as B1.
  pose proof (day_of_year_bounds y2 m2 d2 Hm2 Hd2) as B2.
  unfold day_of_year in *.
  destruct (Z.compare_spec y1 y2) as [Ey|Ly|Gy]; try discriminate.
  - subst y2.
    destruct (Z.compare_spec m1 m2) as [Em|Lm|Gm]; try discriminate.
    + subst m2. destruct (Z.compare_spec d1 d2); try discriminate. lia.
    + intros _.
      pose proof (day_of_year_mono y1 m1 d1 m2 d2 Hm1 Hd1 Hm2 Hd2 Lm) as M.
      unfold day_of_year in M. lia.
  - intros _.
    pose proof (days_before_year_succ y1) as S1.
    pose proof (days_before_year_mono (y1 + 1) y2 ltac:(lia)) as M.
    lia.
Qed.

Lemma date_cmp_antisym (a b : Z * Z * Z) :
  date_cmp b a = CompOpp (date_cmp a b).
Proof.
  destruct a as [[y1 m1] d1], b as [[y2 m2] d2].
  unfold date_cmp, lex_compare.
  rewrite (Z.compare_antisym y1 y2), (Z.compare_antisym m1 m2),
    (Z.compare_antisym d1 d2).
  destruct (y1 ?= y2), (m1 ?= m2), (d1 ?= d2); reflexivity.
Qed.

Lemma date_cmp_eq (a b : Z * Z * Z) : date_cmp a b = Eq -> a = b.
Proof.
  destruct a as [[y1 m1] d1], b as [[y2 m2] d2].
  unfold date_cmp, lex_compare.
  destruct (Z.compare_spec y1 y2); try discriminate.
  destruct (Z.compare_spec m1 m2); try discriminate.
  destruct (Z.compare_spec d1 d2); try discriminate.
  intros _. congruence.
Qed.

(** The converse: a smaller ordinal is an earlier date. *)
Lemma ymd2ord_lt_inv (y1 m1 d1 y2 m2 d2 : Z) :
  1 <= m1 <= 12 -> 1 <= d1 <= days_in_month y1 m1 ->
  1 <= m2 <= 12 -> 1 <= d2 <= days_in_month y2 m2 ->
  ymd2ord y1 m1 d1 < ymd2ord y2 m2 d2 ->
  date_lt (y1, m1, d1) (y2, m2, d2) = true.
Proof.
  intros Hm1 Hd1 Hm2 Hd2 Hlt. unfold date_lt.
  destruct (date_cmp (y1, m1, d1) (y2, m2, d2)) eqn:E; [| reflexivity |].
  - apply date_cmp_eq in E. injection E as -> -> ->. lia.
  - assert (L : date_lt (y2, m2, d2) (y1, m1, d1) = true).
    { unfold date_lt. now rewrite date_cmp_antisym, E. }
    apply ymd2ord_lt in L; trivial. lia.
Qed.

(** The last step of [ord2ymd]: month and day from the leap flag and the
    zero-based day of the year. *)
Definition month_day (leapyear : bool) (n : Z) : Z * Z :=
  let month := Z.shiftr (n + 50) 5 in
  let preceding := DAYS_BEFORE_MONTH month + b2z ((2 <? month) && leapyear) in
  let '(month, preceding) :=
    if n <? preceding
    then (month - 1,
          preceding - (DAYS_IN_MONTH (month - 1)
                       + b2z ((month - 1 =? 2) && leapyear)))
    else (month, preceding) in
  (month, n - preceding + 1).

Definition month_day_ok (leapyear : bool) (n : Z) : bool :=
  let '(m, d) := month_day leapyear n in
  (1 <=? m) && (m <=? 12) && (1 <=? d)
  && (d <=? DAYS_IN_MONTH m + b2z ((m =? 2) && leapyear))
  && (DAYS_BEFORE_MONTH m + b2z ((2 <? m) && leapyear) + d =? n + 1).

Lemma month_day_common : all_below 365 (month_day_ok false) = true.
Proof. vm_compute. reflexivity. Qed.

Lemma month_day_leap : all_below 366 (month_day_ok true) = true.
Proof. vm_compute. reflexivity. Qed.

Lemma month_day_spec (leapyear : bool) (n : Z) :
  0 <= n < 365 + b2z leapyear ->
  let '(m, d) := month_day leapyear n in
  1 <= m <= 12 /\
  1 <= d <= DAYS_IN_MONTH m + b2z ((m =? 2) && leapyear) /\
  DAYS_BEFORE_MONTH m + b2z ((2 <? m) && leapyear) + d = n + 1.
Proof.
  intros Hn.
  assert (H : month_day_ok leapyear n = true).
  { destruct leapyear; simpl b2z in Hn.
    - apply (all_below_spec 366); [apply month_day_leap | lia].
    - apply (all_below_spec 365); [apply month_day_common | lia]. }
  unfold month_day_ok in H. destruct (month_day leapyear n) as [m d].
  rewrite !andb_true_iff, !Z.leb_le, Z.eqb_eq in H. lia.
Qed.

Lemma days_in_month_alt (y m : Z) :
  days_in_month y m = DAYS_IN_MONTH m + b2z ((m =? 2) && is_leap y).
Proof.
  unfold days_in_month. destruct (m =? 2) eqn:E.
  - apply Z.eqb_eq in E. subst m. destruct (is_leap y); reflexivity.
  - simpl. lia.
Qed.

(** [ord2ymd] yields a date of the calendar, and [ymd2ord] takes it back
    to the ordinal. *)
Lemma ord2ymd_spec (n : Z) :
  1 <= n ->
  let '(y, m, d) := ord2ymd n in
  1 <= y /\ 1 <= m <= 12 /\ 1 <= d <= days_in_month y m /\ ymd2ord y m d = n.
Proof.
  intros Hn. unfold ord2ymd.
  set (n0 := n - 1).
  set (n400 := n0 / DI400Y). set (r400 := n0 mod DI400Y).
  set (n100 := r400 / DI100Y). set (r100 := r400 mod DI100Y).
  set (n4 := r100 / DI4Y). set (r4 := r100 mod DI4Y).
  set (n1 := r4 / 365). set (r1 := r4 mod 365).
  set (yr := n400 * 400 + 1 + (n100 * 100 + n4 * 4 + n1)).
  assert (F : 0 <= n400 /\ n0 = n400 * 146097 + r400 /\ 0 <= r400 < 146097
              /\ r400 = n100 * 36524 + r100 /\ 0 <= r100 < 36524 /\ 0 <= n100 <= 4
              /\ r100 = n4 * 1461 + r4 /\ 0 <= r4 < 1461 /\ 0 <= n4 <= 24
              /\ r4 = n1 * 365 + r1 /\ 0 <= r1 < 365 /\ 0 <= n1 <= 4).
  { subst n400 r400 n100 r100 n4 r4 n1 r1. unfold DI400Y, DI100Y, DI4Y.
    assert (0 <= n0) by (subst n0; lia). zdiv. }
  clearbody n400 r400 n100 r100 n4 r4 n1 r1.
  destruct ((n1 =? 4) || (n100 =? 4)) eqn:Last.
  - (* the last day of a leap year *)
    apply orb_true_iff in Last. rewrite !Z.eqb_eq in Last.
    assert (B : days_before_year (yr - 1) = (yr - 2) * 365 + (yr - 2) / 4
              - (yr - 2) / 100 + (yr - 2) / 400).
    { unfold days_before_year. replace (yr - 1 - 1) with (yr - 2) by lia.
      reflexivity. }
    assert (L : is_leap (yr - 1) = true).
    { unfold is_leap.
      rewrite andb_true_iff, orb_true_iff, negb_true_iff, Z.eqb_eq, Z.eqb_neq,
        Z.eqb_eq.
      subst yr. zdiv. }
    unfold ymd2ord, days_before_month, days_in_month. rewrite L, B.
    tables. subst yr n0. zdiv.
  - apply orb_false_iff in Last. rewrite !Z.eqb_neq in Last.
    set (leapyear := (n1 =? 3) && (negb (n4 =? 24) || (n100 =? 3))).
    assert (L : is_leap yr = leapyear).
    { unfold is_leap, leapyear. subst yr.
      destruct (n1 =? 3) eqn:E1; destruct (n4 =? 24) eqn:E4;
        destruct (n100 =? 3) eqn:E100;
        rewrite ?Z.eqb_eq, ?Z.eqb_neq in E1, E4, E100; simpl;
        rewrite ?andb_true_iff, ?andb_false_iff, ?orb_true_iff, ?orb_false_iff,
          ?negb_true_iff, ?negb_false_iff, ?Z.eqb_eq, ?Z.eqb_neq; zdiv. }
    assert (R : 0 <= r1 < 365 + b2z leapyear) by (destruct leapyear; simpl; lia).
    pose proof (month_day_spec leapyear r1 R) as MD.
    unfold month_day in MD. cbv beta iota zeta in MD |- *.
    fold leapyear.
    assert (B : days_before_year yr
                = n400 * 146097 + n100 * 36524 + n4 * 1461 + n1 * 365).
    { unfold days_before_year. subst yr. zdiv. }
    assert (Y : 1 <= yr) by (subst yr; lia).
    destruct (r1 <? DAYS_BEFORE_MONTH (Z.shiftr (r1 + 50) 5)
                    + b2z ((2 <? Z.shiftr (r1 + 50) 5) && leapyear));
      rewrite days_in_month_alt; unfold ymd2ord, days_before_month;
      rewrite L, B; subst n0; lia.
Qed.

End Calendar.

(** * The billing period *)

Import Calendar.

(** The dates at which each step of the period computation stays inside
    Python's range of years. *)

(** A 13th on or before [today] exists: everything but 1-12 January of
    [MINYEAR]. *)
Definition start_in_range (today : datetime) : Prop :=
  MINYEAR < year today \/ 1 < month today \/ 13 <= day today.

(** The month after the start month exists: everything but 13-31 December
    of [MAXYEAR]. *)
Definition end_in_range (today : datetime) : Prop :=
  year today < MAXYEAR \/ month today < 12 \/ day today < 13.

(** The start plus 50 days exists: up to 12 November of [MAXYEAR]. *)
Definition due_in_range (today : datetime) : Prop :=
  year today < MAXYEAR \/ month today < 11 \/ (month today = 11 /\ day today < 13).

Definition time_of (t : datetime) : Z * Z * Z * Z :=
  (hour t, minute t, second t, microsecond t).

Lemma valid_spec (t : datetime) :
  valid t = true <->
  (MINYEAR <= year t <= MAXYEAR /\ 1 <= month t <= 12
   /\ 1 <= day t <= days_in_month (year t) (month t))
  /\ check_time_fields (hour t) (minute t) (second t) (microsecond t) = true.
Proof.
  unfold valid. rewrite andb_true_iff, check_date_fields_spec. tauto.
Qed.

Lemma check_time_fields_spec (hh mm ss us : Z) :
  check_time_fields hh mm ss us = true <->
  0 <= hh <= 23 /\ 0 <= mm <= 59 /\ 0 <= ss <= 59 /\ 0 <= us <= 999999.
Proof.
  unfold check_time_fields. rewrite !andb_true_iff, !Z.leb_le. tauto.
Qed.

Lemma days_in_month_ge_28 (y m : Z) : 1 <= m <= 12 -> 28 <= days_in_month y m <= 31.
Proof.
  intros Hm. unfold days_in_month.
  each_month m Hm; destruct (is_leap y); tables; lia.
Qed.

Lemma new_some (y m d hh mm ss us : Z) :
  MINYEAR <= y <= MAXYEAR -> 1 <= m <= 12 -> 1 <= d <= 28 ->
  check_time_fields hh mm ss us = true ->
  new y m d hh mm ss us = Some (mkDatetime y m d hh mm ss us).
Proof.
  intros Hy Hm Hd Ht. unfold new.
  assert (D : check_date_fields y m d = true).
  { apply check_date_fields_spec. pose proof (days_in_month_ge_28 y m Hm). lia. }
  now rewrite D, Ht.
Qed.

(** [bill_start] in closed form. *)
Lemma bill_start_eq (today : datetime) :
  valid today = true -> start_in_range today ->
  bill_start today =
  Some (if 13 <=? day today
        then mkDatetime (year today) (month today) 13
               (hour today) (minute today) (second today) (microsecond today)
        else if month today =? 1
        then mkDatetime (year today - 1) 12 13
               (hour today) (minute today) (second today) (microsecond today)
        else mkDatetime (year today) (month today - 1) 13
               (hour today) (minute today) (second today) (microsecond today)).
Proof.
  intros Hv Hr. apply valid_spec in Hv. destruct Hv as [(Hy & Hm & Hd) Ht].
  unfold bill_start, replace, start_in_range, MINYEAR, MAXYEAR in *.
  destruct (13 <=? day today) eqn:E13.
  - apply new_some; unfold MINYEAR, MAXYEAR; trivial; lia.
  - apply Z.leb_gt in E13.
    destruct (month today =? 1) eqn:E1.
    + apply Z.eqb_eq in E1.
      apply new_some; unfold MINYEAR, MAXYEAR; trivial; lia.
    + apply Z.eqb_neq in E1.
      apply new_some; unfold MINYEAR, MAXYEAR; trivial; lia.
Qed.

(** Outside [start_in_range] the script stops with [ValueError]. *)
Lemma bill_start_none (today : datetime) :
  valid today = true -> ~ start_in_range today -> bill_start today = None.
Proof.
  intros Hv Hr. apply valid_spec in Hv. destruct Hv as [(Hy & Hm & Hd) Ht].
  unfold start_in_range, MINYEAR, MAXYEAR in *.
  assert (Ey : year today = 1) by lia.
  assert (Em : month today = 1) by lia.
  unfold bill_start, replace, new.
  destruct (13 <=? day today) eqn:E13; [apply Z.leb_le in E13; lia|].
  rewrite Em, Ey. reflexivity.
Qed.

(** ** C1 *)

(** C1: from the 13th on, the period starts on the 13th of today's month
    and year; before the 13th it starts on the 13th of the month before,
    which for January is December of the year before. The time of day of
    [today] is carried along. *)
Theorem bill_start_thirteenth (today : datetime) :
  valid today = true -> start_in_range today ->
  exists s,
    bill_start today = Some s /\
    time_of s = time_of today /\
    (13 <= day today -> date s = (year today, month today, 13)) /\
    (day today < 13 -> month today <> 1 ->
       date s = (year today, month today - 1, 13)) /\
    (day today < 13 -> month today = 1 ->
       date s = (year today - 1, 12, 13)).
Proof.
  intros Hv Hr. rewrite (bill_start_eq today Hv Hr).
  eexists. split; [reflexivity|].
  destruct (13 <=? day today) eqn:E13;
    [apply Z.leb_le in E13 | apply Z.leb_gt in E13];
    (destruct (month today =? 1) eqn:E1;
     [apply Z.eqb_eq in E1 | apply Z.eqb_neq in E1]);
    repeat split; intros; try lia; reflexivity.
Qed.

Definition noon_20_dec_2024 : datetime := mkDatetime 2024 12 20 12 0 0 0.
Definition morning_5_jan_2024 : datetime := mkDatetime 2024 1 5 9 30 15 250000.

Lemma bill_start_thirteenth_witness :
  exists s,
    bill_start morning_5_jan_2024 = Some s /\
    time_of s = time_of morning_5_jan_2024 /\
    (13 <= 5 -> date s = (2024, 1, 13)) /\
    (5 < 13 -> 1 <> 1 -> date s = (2024, 1 - 1, 13)) /\
    (5 < 13 -> 1 = 1 -> date s = (2024 - 1, 12, 13)).
Proof.
  apply (bill_start_thirteenth morning_5_jan_2024).
  - reflexivity.
  - unfold start_in_range, MINYEAR. simpl. lia.
Defined.

(** ** C2 *)

Lemma bill_start_shape (today s : datetime) :
  valid today = true -> bill_start today = Some s ->
  valid s = true /\ day s = 13 /\ time_of s = time_of today
  /\ ((13 <= day today /\ year s = year today /\ month s = month today)
      \/ (day today < 13 /\ month today = 1
          /\ year s = year today - 1 /\ month s = 12)
      \/ (day today < 13 /\ 1 < month today
          /\ year s = year today /\ month s = month today - 1)).
Proof.
  intros Hv Hs. pose proof Hv as Hv'. apply valid_spec in Hv'.
  destruct Hv' as [(Hy & Hm & Hd) Ht].
  unfold bill_start, replace, new in Hs.
  destruct (13 <=? day today) eqn:E13;
    [apply Z.leb_le in E13 | apply Z.leb_gt in E13];
    [| destruct (month today =? 1) eqn:E1;
       [apply Z.eqb_eq in E1 | apply Z.eqb_neq in E1]];
    match type of Hs with
    | (if ?c then _ else _) = _ => destruct c eqn:V
    end; try discriminate;
    injection Hs as <-; unfold valid, time_of;
    cbn [year month day hour minute second microsecond];
    rewrite V; repeat split; lia.
Qed.

(** [bill_end] in closed form. *)
Lemma bill_end_eq (s : datetime) :
  1 <= month s <= 12 -> MINYEAR <= year s <= MAXYEAR ->
  year s < MAXYEAR \/ month s < 12 ->
  bill_end s =
  Some (if month s =? 12
        then mkDatetime (year s + 1) 1 12 0 0 0 0
        else mkDatetime (year s) (month s + 1) 12 0 0 0 0).
Proof.
  intros Hm Hy Hr. unfold bill_end, next_month, MINYEAR, MAXYEAR in *.
  destruct (month s =? 12) eqn:E12.
  - apply Z.eqb_eq in E12. rewrite E12. cbn [Z.modulo Z.add Z.eqb].
    change (12 mod 12 + 1) with 1. cbn [Z.eqb Pos.eqb].
    apply new_some; unfold MINYEAR, MAXYEAR; try lia. reflexivity.
  - apply Z.eqb_neq in E12.
    rewrite (Z.mod_small (month s) 12) by lia.
    destruct (month s + 1 =? 1) eqn:E; [apply Z.eqb_eq in E; lia|].
    rewrite Z.add_0_r.
    apply new_some; unfold MINYEAR, MAXYEAR; try lia. reflexivity.
Qed.

(** C2: the period ends at midnight on the 12th of the month after the
    start month, in the next year when the start month is December. *)
Theorem bill_end_twelfth (today : datetime) :
  valid today = true -> start_in_range today -> end_in_range today ->
  exists s e,
    bill_start today = Some s /\ bill_end s = Some e /\
    day e = 12 /\ time_of e = (0, 0, 0, 0) /\
    (month s <> 12 -> year e = year s /\ month e = month s + 1) /\
    (month s = 12 -> year e = year s + 1 /\ month e = 1).
Proof.
  intros Hv Hs He.
  pose proof (bill_start_eq today Hv Hs) as Es'.
  destruct (bill_start today) as [s|] eqn:Es; [clear Es' | discriminate].
  destruct (bill_start_shape today s Hv Es) as (Vs & _ & _ & C).
  apply valid_spec in Vs. destruct Vs as [(Hy & Hm & _) _].
  apply valid_spec in Hv. destruct Hv as [(Hy' & Hm' & Hd') _].
  assert (R : year s < MAXYEAR \/ month s < 12)
    by (unfold end_in_range, MINYEAR, MAXYEAR in *; lia).
  exists s. eexists. split; [reflexivity|]. split.
  - apply bill_end_eq; trivial.
  - destruct (month s =? 12) eqn:E12;
      [apply Z.eqb_eq in E12 | apply Z.eqb_neq in E12];
      cbn [year month day]; unfold time_of; cbn [hour minute second microsecond];
      repeat split; intros; try lia; reflexivity || (split; lia).
Qed.

Lemma bill_end_twelfth_witness :
  exists s e,
    bill_start noon_20_dec_2024 = Some s /\ bill_end s = Some e /\
    day e = 12 /\ time_of e = (0, 0, 0, 0) /\
    (month s <> 12 -> year e = year s /\ month e = month s + 1) /\
    (month s = 12 -> year e = year s + 1 /\ month e = 1).
Proof.
  apply (bill_end_twelfth noon_20_dec_2024).
  - reflexivity.
  - unfold start_in_range, MINYEAR. simpl. lia.
  - unfold end_in_range, MAXYEAR. simpl. lia.
Defined.

(** Past [end_in_range] the constructor is given year 10000 and raises. *)
Lemma bill_end_none (s : datetime) :
  year s = MAXYEAR -> month s = 12 -> bill_end s = None.
Proof.
  intros Ey Em. unfold bill_end, next_month. rewrite Ey, Em. reflexivity.
Qed.

(** ** C3 *)

Lemma date_lt_iff (y1 m1 d1 y2 m2 d2 : Z) :
  date_lt (y1, m1, d1) (y2, m2, d2) = true <->
  y1 < y2 \/ (y1 = y2 /\ (m1 < m2 \/ (m1 = m2 /\ d1 < d2))).
Proof.
  unfold date_lt, date_cmp, lex_compare.
  destruct (Z.compare_spec y1 y2); destruct (Z.compare_spec m1 m2);
    destruct (Z.compare_spec d1 d2); split; intros; try discriminate;
    try reflexivity; lia.
Qed.

Lemma date_le_iff (y1 m1 d1 y2 m2 d2 : Z) :
  date_le (y1, m1, d1) (y2, m2, d2) = true <->
  y1 < y2 \/ (y1 = y2 /\ (m1 < m2 \/ (m1 = m2 /\ d1 <= d2))).
Proof.
  unfold date_le, date_cmp, lex_compare.
  destruct (Z.compare_spec y1 y2); destruct (Z.compare_spec m1 m2);
    destruct (Z.compare_spec d1 d2); split; intros; try discriminate;
    try reflexivity; lia.
Qed.

(** An earlier date is an earlier datetime, whatever the times of day. *)
Lemma lt_of_date_lt (a b : datetime) :
  date_lt (date a) (date b) = true -> lt a b = true.
Proof.
  unfold date_lt, date_cmp, date, lt, cmp, fields, lex_compare.
  destruct (year a ?= year b); try discriminate; trivial.
  destruct (month a ?= month b); try discriminate; trivial.
  destruct (day a ?= day b); try discriminate; trivial.
Qed.

Lemma le_of_lt (a b : datetime) : lt a b = true -> le a b = true.
Proof. unfold lt, le. destruct (cmp a b); congruence. Qed.

Lemma date_le_of_lt (a b : Z * Z * Z) : date_lt a b = true -> date_le a b = true.
Proof. unfold date_lt, date_le. destruct (date_cmp a b); congruence. Qed.

(** From the 13th of a month to the 12th of the next there are the days
    of the month, less one. *)
Lemma next_twelfth_ord (y m : Z) :
  1 <= m <= 12 ->
  ymd2ord (if m =? 12 then y + 1 else y) (if m =? 12 then 1 else m + 1) 12
  = ymd2ord y m 13 + days_in_month y m - 1.
Proof.
  intros Hm. unfold ymd2ord, days_before_month, days_in_month.
  pose proof (days_before_year_succ y) as S.
  each_month m Hm;
    repeat match goal with
           | |- context [Z.pos ?p + 1] =>
               let v := eval vm_compute in (Z.pos p + 1) in
               change (Z.pos p + 1) with v
           end;
    destruct (is_leap y) eqn:L; tables; rewrite ?L; lia.
Qed.

Lemma year_of_ordinal (y m d : Z) :
  1 <= m <= 12 -> 1 <= d <= days_in_month y m ->
  ymd2ord y m d <= MAXORDINAL -> y <= MAXYEAR.
Proof.
  intros Hm Hd Ho. unfold ymd2ord, MAXORDINAL, MAXYEAR in *.
  pose proof (day_of_year_bounds y m d Hm Hd) as B. unfold day_of_year in B.
  destruct (Z_le_gt_dec y 9999) as [|G]; trivial.
  pose proof (days_before_year_mono 10000 y ltac:(lia)) as M.
  change (days_before_year 10000) with 3652059 in M. lia.
Qed.

(** [t + timedelta(days=n)] is the date [n] days later at the same time
    of day, provided the day count stays in range. *)
Lemma add_days_spec (t : datetime) (n : Z) :
  valid t = true -> 0 < toordinal t + n <= MAXORDINAL ->
  exists r, add_days t n = Some r /\ valid r = true
            /\ toordinal r = toordinal t + n /\ time_of r = time_of t.
Proof.
  intros Hv Hr. apply valid_spec in Hv. destruct Hv as [_ Ht].
  pose proof Ht as Ht'. apply check_time_fields_spec in Ht'.
  unfold add_days.
  assert (C : ((0 <? toordinal t + n) && (toordinal t + n <=? MAXORDINAL))%bool = true).
  { apply andb_true_iff. rewrite Z.ltb_lt, Z.leb_le. lia. }
  rewrite C.
  pose proof (ord2ymd_spec (toordinal t + n) ltac:(lia)) as O.
  destruct (ord2ymd (toordinal t + n)) as [[y m] d].
  destruct O as (Hy & Hm & Hd & Ho).
  assert (Eh : (hour t * 3600 + minute t * 60 + second t) / 3600 = hour t) by zdiv.
  assert (Em : (hour t * 3600 + minute t * 60 + second t) mod 3600 / 60 = minute t)
    by zdiv.
  assert (Es : ((hour t * 3600 + minute t * 60 + second t) mod 3600) mod 60 = second t)
    by zdiv.
  rewrite Eh, Em, Es.
  eexists. split; [reflexivity|].
  unfold toordinal, time_of. cbn [year month day hour minute second microsecond].
  repeat split; trivial.
  apply valid_spec. cbn [year month day hour minute second microsecond].
  split; trivial. unfold MINYEAR. repeat split; try lia.
  apply (year_of_ordinal y m d); trivial. lia.
Qed.

(** The whole period in closed form is reached whenever the three steps
    stay in range. *)
Lemma billing_period_some (today : datetime) :
  valid today = true -> start_in_range today -> due_in_range today ->
  exists s e d,
    bill_start today = Some s /\ bill_end s = Some e /\ due_date s = Some d /\
    billing_period today = Some (mkPeriod s e d) /\
    valid s = true /\ valid e = true /\ valid d = true /\
    toordinal e = toordinal s + days_in_month (year s) (month s) - 1 /\
    toordinal d = toordinal s + 50 /\ time_of d = time_of s.
Proof.
  intros Hv Hs Hd.
  pose proof (bill_start_eq today Hv Hs) as Es'.
  destruct (bill_start today) as [s|] eqn:Es; [clear Es' | discriminate].
  destruct (bill_start_shape today s Hv Es) as (Vs & D13 & _ & C).
  pose proof Vs as Vs'. apply valid_spec in Vs'. destruct Vs' as [(Hy & Hm & Hdd) _].
  pose proof Hv as Hv'. apply valid_spec in Hv'. destruct Hv' as [(Hy' & Hm' & Hd') _].
  assert (R : year s < MAXYEAR \/ month s < 11)
    by (unfold due_in_range, MINYEAR, MAXYEAR in *; lia).
  assert (Ee : bill_end s = Some (if month s =? 12
                                  then mkDatetime (year s + 1) 1 12 0 0 0 0
                                  else mkDatetime (year s) (month s + 1) 12 0 0 0 0)).
  { apply bill_end_eq; trivial. lia. }
  assert (B : toordinal s + 50 <= MAXORDINAL).
  { unfold toordinal. rewrite D13.
    assert (L : date_lt (year s, month s, 13) (MAXYEAR, 11, 12) = true).
    { apply date_lt_iff. unfold MAXYEAR in *. lia. }
    apply ymd2ord_lt in L; try lia.
    - change (ymd2ord MAXYEAR 11 12) with 3652010 in L. unfold MAXORDINAL. lia.
    - vm_compute. split; discriminate. }
  assert (P : 1 <= toordinal s).
  { unfold toordinal, ymd2ord.
    pose proof (day_of_year_bounds _ _ _ Hm Hdd) as Bd. unfold day_of_year in Bd.
    pose proof (days_before_year_mono 1 (year s) ltac:(unfold MINYEAR in *; lia)) as M.
    change (days_before_year 1) with 0 in M. lia. }
  destruct (add_days_spec s 50 Vs ltac:(lia)) as (d & Ed & Vd & Od & Td).
  exists s. eexists. exists d.
  split; [reflexivity|]. split; [exact Ee|]. split; [exact Ed|].
  split. { unfold billing_period. rewrite Es. simpl. rewrite Ee. simpl.
           unfold due_date in *. rewrite Ed. reflexivity. }
  split; [exact Vs|]. split.
  { apply valid_spec. unfold MINYEAR, MAXYEAR in *.
    destruct (month s =? 12) eqn:E12;
      [apply Z.eqb_eq in E12|apply Z.eqb_neq in E12];
      cbn [year month day hour minute second microsecond];
      (split; [|reflexivity]).
    - change (days_in_month (year s + 1) 1) with 31. lia.
    - pose proof (days_in_month_ge_28 (year s) (month s + 1) ltac:(lia)). lia. }
  split; [exact Vd|]. split; [|split; trivial].
  pose proof (next_twelfth_ord (year s) (month s) Hm) as N.
  unfold toordinal. rewrite D13.
  destruct (month s =? 12); cbn [year month day]; exact N.
Qed.

Lemma valid_date (t : datetime) :
  valid t = true ->
  1 <= month t <= 12 /\ 1 <= day t <= days_in_month (year t) (month t).
Proof. intros H. apply valid_spec in H. tauto. Qed.

Lemma date_lt_of_ordinal (a b : datetime) :
  valid a = true -> valid b = true -> toordinal a < toordinal b ->
  date_lt (date a) (date b) = true.
Proof.
  intros Va Vb H. apply valid_date in Va, Vb. unfold date.
  apply ymd2ord_lt_inv; tauto.
Qed.

(** C3: the due date is the day whose ordinal is that of the period start
    plus 50, at the same time of day, and the three dates are in the order
    start <= end < due date, as datetimes and as calendar dates. *)
Theorem due_date_fifty_days (today : datetime) :
  valid today = true -> start_in_range today -> due_in_range today ->
  exists p,
    billing_period today = Some p /\
    add_days (p_start p) 50 = Some (p_due p) /\
    valid (p_due p) = true /\
    toordinal (p_due p) = toordinal (p_start p) + 50 /\
    time_of (p_due p) = time_of (p_start p) /\
    le (p_start p) (p_end p) = true /\ lt (p_end p) (p_due p) = true /\
    date_le (date (p_start p)) (date (p_end p)) = true /\
    date_lt (date (p_end p)) (date (p_due p)) = true.
Proof.
  intros Hv Hs Hd.
  destruct (billing_period_some today Hv Hs Hd)
    as (s & e & d & Es & Ee & Ed & Ep & Vs & Ve & Vd & Oe & Od & Td).
  exists (mkPeriod s e d). cbn [p_start p_end p_due].
  pose proof (days_in_month_ge_28 (year s) (month s)
                (proj1 (valid_date s Vs))) as B.
  assert (SE : date_lt (date s) (date e) = true)
    by (apply date_lt_of_ordinal; trivial; lia).
  assert (ED : date_lt (date e) (date d) = true)
    by (apply date_lt_of_ordinal; trivial; lia).
  repeat split; trivial.
  - apply le_of_lt, lt_of_date_lt, SE.
  - apply lt_of_date_lt, ED.
  - apply date_le_of_lt, SE.
Qed.

Lemma due_date_fifty_days_witness :
  exists p,
    billing_period morning_5_jan_2024 = Some p /\
    add_days (p_start p) 50 = Some (p_due p) /\
    valid (p_due p) = true /\
    toordinal (p_due p) = toordinal (p_start p) + 50 /\
    time_of (p_due p) = time_of (p_start p) /\
    le (p_start p) (p_end p) = true /\ lt (p_end p) (p_due p) = true /\
    date_le (date (p_start p)) (date (p_end p)) = true /\
    date_lt (date (p_end p)) (date (p_due p)) = true.
Proof.
  apply (due_date_fifty_days morning_5_jan_2024).
  - reflexivity.
  - unfold start_in_range, MINYEAR. simpl. lia.
  - unfold due_in_range, MAXYEAR. simpl. lia.
Defined.

(** Past [due_in_range] the sum overflows: [OverflowError]. *)
Example due_date_overflow :
  due_date (mkDatetime 9999 11 13 0 0 0 0) = None.
Proof. reflexivity. Qed.

(** ** C10 *)

(** C10: as calendar dates, [today] lies between the period start and the
    period end, both included. *)
Theorem today_in_period (today : datetime) :
  valid today = true -> start_in_range today -> end_in_range today ->
  exists s e,
    bill_start today = Some s /\ bill_end s = Some e /\
    date_le (date s) (date today) = true /\
    date_le (date today) (date e) = true.
Proof.
  intros Hv Hs He.
  pose proof (bill_start_eq today Hv Hs) as Es.
  destruct (bill_start_shape today _ Hv Es) as (Vs & _ & _ & _).
  apply valid_spec in Vs. destruct Vs as [(Hy & Hm & _) _].
  apply valid_spec in Hv. destruct Hv as [(Hy' & Hm' & Hd') _].
  unfold end_in_range, MINYEAR, MAXYEAR in *.
  destruct (13 <=? day today) eqn:E13;
    [apply Z.leb_le in E13 | apply Z.leb_gt in E13];
    (destruct (month today =? 1) eqn:E1;
     [apply Z.eqb_eq in E1 | apply Z.eqb_neq in E1]);
    cbn [year month day] in *;
    (eexists; eexists; split; [exact Es|]);
    (split; [apply bill_end_eq; cbn [year month day];
             unfold MINYEAR, MAXYEAR; lia|]);
    cbn [year month day];
    match goal with
    | |- context [?m =? 12] =>
        destruct (m =? 12) eqn:E12;
        [apply Z.eqb_eq in E12 | apply Z.eqb_neq in E12]
    end;
    unfold date; cbn [year month day];
    rewrite !date_le_iff; lia.
Qed.

Definition morning_12_mar_2024 : datetime := mkDatetime 2024 3 12 10 0 0 0.

Lemma today_in_period_witness :
  exists s e,
    bill_start morning_12_mar_2024 = Some s /\ bill_end s = Some e /\
    date_le (date s) (date morning_12_mar_2024) = true /\
    date_le (date morning_12_mar_2024) (date e) = true.
Proof.
  apply (today_in_period morning_12_mar_2024).
  - reflexivity.
  - unfold start_in_range, MINYEAR. simpl. lia.
  - unfold end_in_range, MAXYEAR. simpl. lia.
Defined.

(** With the times of day taken into account the upper bound is lost on
    the 12th: the period end is midnight, and [today] is later. *)
Example today_after_bill_end :
  billing_period morning_12_mar_2024
  = Some (mkPeriod (mkDatetime 2024 2 13 10 0 0 0)
                   (mkDatetime 2024 3 12 0 0 0 0)
                   (mkDatetime 2024 4 3 10 0 0 0))
  /\ le morning_12_mar_2024 (mkDatetime 2024 3 12 0 0 0 0) = false.
Proof. split; reflexivity. Qed.

(** ** C5 *)

(** C5, as stated, fails: on 2024-12-20 the due date is not 2025-01-31. *)
Lemma due_date_20_dec_2024_not_31_jan :
  ~ (exists p,
       billing_period noon_20_dec_2024 = Some p /\
       date (p_start p) = (2024, 12, 13) /\
       date (p_end p) = (2025, 1, 12) /\
       date (p_due p) = (2025, 1, 31)).
Proof.
  intros (p & Ep & _ & _ & Ed).
  vm_compute in Ep. injection Ep as <-. discriminate Ed.
Qed.

(** C5, amended: at any time of day on 2024-12-20 the period starts on
    2024-12-13, ends on 2025-01-12 and is due on 2025-02-01, the 50th day
    after the start. *)
Theorem period_20_dec_2024 (hh mm ss us : Z) :
  check_time_fields hh mm ss us = true ->
  exists p,
    billing_period (mkDatetime 2024 12 20 hh mm ss us) = Some p /\
    date (p_start p) = (2024, 12, 13) /\
    date (p_end p) = (2025, 1, 12) /\
    date (p_due p) = (2025, 2, 1).
Proof.
  intros Ht.
  set (today := mkDatetime 2024 12 20 hh mm ss us).
  assert (Hv : valid today = true) by (unfold valid; cbn; exact Ht).
  assert (Hs : start_in_range today) by (unfold start_in_range, MINYEAR; cbn; lia).
  assert (Hd : due_in_range today) by (unfold due_in_range, MAXYEAR; cbn; lia).
  destruct (billing_period_some today Hv Hs Hd)
    as (s & e & d & Es & Ee & Ed & Ep & Vs & Ve & Vd & Oe & Od & Td).
  exists (mkPeriod s e d). cbn [p_start p_end p_due].
  rewrite (bill_start_eq today Hv Hs) in Es. cbn in Es. injection Es as <-.
  unfold bill_end, next_month, new in Ee. cbn in Ee. injection Ee as <-.
  unfold due_date, add_days in Ed.
  change (toordinal (mkDatetime 2024 12 13 hh mm ss us) + 50) with 739283 in Ed.
  cbn in Ed. injection Ed as <-.
  repeat split; trivial.
Qed.

Lemma period_20_dec_2024_witness :
  exists p,
    billing_period (mkDatetime 2024 12 20 12 0 0 0) = Some p /\
    date (p_start p) = (2024, 12, 13) /\
    date (p_end p) = (2025, 1, 12) /\
    date (p_due p) = (2025, 2, 1).
Proof. apply (period_20_dec_2024 12 0 0 0). reflexivity. Defined.

(** * The ledger *)

Arguments mkTransaction {amount}.
Arguments tx_id {amount}.
Arguments tx_user_id {amount}.
Arguments tx_amount {amount}.
Arguments tx_type {amount}.
Arguments tx_description {amount}.
Arguments tx_timestamp {amount}.
Arguments users {amount}.
Arguments transactions {amount}.
Arguments li_amount {amount}.
Arguments li_type {amount}.
Arguments li_description {amount}.
Arguments li_timestamp {amount}.
Arguments st_user {amount}.
Arguments st_period {amount}.
Arguments st_items {amount}.
Arguments st_total_due {amount}.
Arguments mkDb {amount}.
Arguments mkLine {amount}.
Arguments mkStatement {amount}.
Arguments to_line {amount}.
Arguments sql_ret {amount A}.
Arguments sql_bind {amount A B}.
Arguments sql_lift {amount A}.
Arguments in_statement {amount}.
Arguments select_statement {amount}.
Arguments is_debit {amount}.
Arguments py_sum {amount}.
Arguments total_due {amount}.
Arguments description {amount}.
Arguments export_pdf {amount}.
Arguments delete_match {amount}.
Arguments delete_transaction {amount}.

(** The window the specification describes, for comparison with the
    query: from the first instant of the start day to the last instant of
    the end day. *)
Definition start_of_day (t : datetime) : datetime :=
  mkDatetime (year t) (month t) (day t) 0 0 0 0.

Definition end_of_day (t : datetime) : datetime :=
  mkDatetime (year t) (month t) (day t) 23 59 59 999999.

Definition whole_days_window (p : BillingPeriod) (timestamp : string) : bool :=
  between timestamp (Iso.isoformat (start_of_day (p_start p)))
                    (Iso.isoformat (end_of_day (p_end p))).

Section LedgerFacts.

Variable amount : Type.
Variable zero : amount.
Variable add : amount -> amount -> amount.

(** The statement of an in-range [today], in closed form; the database
    comes back as it was. *)
Lemma export_pdf_some (u : user) (today : datetime) (s : db amount) :
  valid today = true -> start_in_range today -> due_in_range today ->
  exists p,
    billing_period today = Some p /\
    let items :=
      map to_line
        (filter (in_statement (u_id u) (Iso.isoformat (p_start p))
                   (Iso.isoformat (p_end p)))
           (transactions s)) in
    export_pdf zero add u today s = Some (mkStatement u p items (total_due zero add items), s).
Proof.
  intros Hv Hs Hd.
  destruct (billing_period_some today Hv Hs Hd)
    as (b & e & d & _ & _ & _ & Ep & _).
  exists (mkPeriod b e d). split; [exact Ep|].
  unfold export_pdf, sql_bind, sql_lift, sql_ret,
    select_statement.
  rewrite Ep. reflexivity.
Qed.

(** [export_pdf] never writes. *)
Lemma export_pdf_readonly (u : user) (today : datetime) (s s' : db amount) (st : statement amount) :
  export_pdf zero add u today s = Some (st, s') -> s' = s.
Proof.
  unfold export_pdf, sql_bind, sql_lift, sql_ret,
    select_statement.
  destruct (billing_period today); [|discriminate].
  intros H. now injection H as _ <-.
Qed.

(** ** C6 *)

Definition is_credit (t : line_item amount) : bool := String.eqb (li_type t) "credit".

Lemma credit_not_debit (t : line_item amount) : is_credit t = true -> is_debit t = false.
Proof.
  unfold is_credit, is_debit. rewrite String.eqb_eq. intros ->. reflexivity.
Qed.

Lemma filter_debit_drop_credit (l : list (line_item amount)) :
  filter is_debit (filter (fun t => negb (is_credit t)) l) = filter is_debit l.
Proof.
  induction l as [|t l IH]; [reflexivity|]. simpl.
  destruct (is_credit t) eqn:C; simpl.
  - rewrite (credit_not_debit t C). exact IH.
  - destruct (is_debit t); [f_equal|]; exact IH.
Qed.

(** C6: the total due is the sum, from zero and in the order of the
    listing, of the amounts of the line items whose type is the text
    [debit]; every row of the user with a timestamp in the window is
    listed whatever its type; summing the debit amounts after the rows of
    type [credit] are left out gives the same total; and when no row of
    the user is in the window the statement is produced with no line item
    and a total of zero. *)
Theorem total_due_sums_debits (u : user) (today : datetime) (s : db amount) :
  valid today = true -> start_in_range today -> due_in_range today ->
  exists st,
    export_pdf zero add u today s = Some (st, s) /\
    st_total_due st
      = fold_left add
          (map li_amount
             (filter (fun t => String.eqb (li_type t) "debit") (st_items st)))
          zero /\
    (forall t, In t (transactions s) ->
       tx_user_id t = u_id u ->
       String.leb (Iso.isoformat (p_start (st_period st))) (tx_timestamp t)
       = true ->
       String.leb (tx_timestamp t) (Iso.isoformat (p_end (st_period st)))
       = true ->
       In (mkLine (tx_amount t) (tx_type t) (tx_description t) (tx_timestamp t))
          (st_items st)) /\
    st_total_due st
      = fold_left add
          (map li_amount
             (filter (fun t => String.eqb (li_type t) "debit")
                (filter (fun t => negb (String.eqb (li_type t) "credit"))
                   (st_items st))))
          zero /\
    ((forall t, In t (transactions s) ->
        tx_user_id t = u_id u ->
        (String.leb (Iso.isoformat (p_start (st_period st))) (tx_timestamp t)
         && String.leb (tx_timestamp t) (Iso.isoformat (p_end (st_period st))))%bool
        = false) ->
     st_items st = [] /\ st_total_due st = zero).
Proof.
  intros Hv Hs Hd.
  destruct (export_pdf_some u today s Hv Hs Hd) as (p & _ & E).
  cbv zeta in E. eexists. split; [exact E|].
  cbn [st_total_due st_items st_period].
  split; [reflexivity|]. split; [|split].
  - intros t Ht Hu Hlo Hhi. apply (in_map to_line), filter_In. split; trivial.
    unfold in_statement, between. rewrite Hu, Z.eqb_refl, Hlo, Hhi. reflexivity.
  - unfold total_due, py_sum. f_equal. f_equal. symmetry.
    exact (filter_debit_drop_credit _).
  - intros H.
    rewrite (filter_ext_in _ (fun _ => false)), filter_false;
      [split; reflexivity|].
    intros t Ht. unfold in_statement, between.
    destruct (Z.eqb_spec (tx_user_id t) (u_id u)) as [Eu|]; [|reflexivity].
    exact (H t Ht Eu).
Qed.

(** ** C7 *)

(** Two runs of [export_pdf] for the same user and the same reading of
    the clock, one after the other, give the same statement twice and
    leave the database as it was; when the first run raises, so does the
    pair. The reading of the clock is taken inside [export_pdf]: see
    [statement_changes_within_a_day] for two runs on one calendar day. *)
Lemma export_pdf_twice (u : user) (today : datetime) (s : db amount) :
  sql_bind (export_pdf zero add u today) (fun a =>
    sql_bind (export_pdf zero add u today) (fun b => sql_ret (a, b))) s
  = match export_pdf zero add u today s with
    | Some (st, _) => Some ((st, st), s)
    | None => None
    end.
Proof.
  unfold sql_bind at 1.
  destruct (export_pdf zero add u today s) as [[st s']|] eqn:E; [|reflexivity].
  pose proof (export_pdf_readonly u today s s' st E) as ->.
  unfold sql_bind, sql_ret. now rewrite E.
Qed.

(** ** C8 *)

Lemma length_append (a b : string) :
  String.length (a ++ b) = (String.length a + String.length b)%nat.
Proof. induction a as [|c a IH]; simpl; [reflexivity | now rewrite IH]. Qed.

Lemma length_substring_0 (n : nat) (s : string) :
  (n <= String.length s)%nat -> String.length (substring 0 n s) = n.
Proof.
  revert s. induction n as [|n IH]; intros s H.
  - destruct s; reflexivity.
  - destruct s as [|c s]; simpl in *; [lia|]. rewrite IH; lia.
Qed.





(** On a text without continuation bytes, ASCII text in particular, code
    points are bytes. *)
Fixpoint single_bytes (s : string) : bool :=
  match s with
  | EmptyString => true
  | String c s' => negb (PyStr.continuation c) && single_bytes s'
  end.

Lemma pystr_single_bytes (s : string) :
  single_bytes s = true ->
  PyStr.len s = String.length s
  /\ forall n, PyStr.take n s = substring 0 n s.
Proof.
  induction s as [|c s IH]; simpl; intros H.
  - split; [reflexivity|]. intros [|n]; reflexivity.
  - apply andb_true_iff in H. destruct H as [C H].
    apply negb_true_iff in C. rewrite C.
    destruct (IH H) as [L T]. split; [now rewrite L|].
    intros [|n]; [reflexivity|]. now rewrite T.
Qed.


(** On a description of single-byte characters the test and the cut are
    those of the bytes. *)
Lemma description_single_bytes (t : line_item amount) :
  single_bytes (li_description t) = true ->
  description t
  = if (33 <? String.length (li_description t))%nat
    then (substring 0 30 (li_description t) ++ "...")%string
    else li_description t.
Proof.
  intros H. unfold description.
  destruct (pystr_single_bytes _ H) as [-> ->]. reflexivity.
Qed.

(** The letter e with an acute accent, two bytes in UTF-8. *)
Definition e_acute : string :=
  String (ascii_of_nat 195) (String (ascii_of_nat 169) EmptyString).

Fixpoint times (n : nat) (s : string) : string :=
  match n with
  | O => EmptyString
  | S n' => (s ++ times n' s)%string
  end.

(** Twenty accented letters are forty bytes and twenty characters: the
    cell shows them all. Forty of them are cut after the thirtieth. *)
Example description_accented (a : amount) :
  String.length (times 20 e_acute) = 40%nat
  /\ description (mkLine a "debit" (times 20 e_acute) "") = times 20 e_acute
  /\ description (mkLine a "debit" (times 40 e_acute) "")
     = (times 30 e_acute ++ "...")%string.
Proof. repeat split. Qed.

(** ** C9 *)

Lemma filter_filter_keep {A : Type} (keep sel : A -> bool) (l : list A) :
  (forall x, sel x = true -> keep x = true) ->
  filter sel (filter keep l) = filter sel l.
Proof.
  intros H. induction l as [|x l IH]; [reflexivity|]. simpl.
  destruct (keep x) eqn:K; simpl.
  - destruct (sel x); [f_equal|]; exact IH.
  - destruct (sel x) eqn:S; [|exact IH].
    rewrite (H x S) in K. discriminate.
Qed.

(** C9: [delete_transaction] removes exactly the rows whose id is the
    given id and whose owner is the given user. The rows of every other
    user, and the rows with any other id, stay as they were and in their
    order; the users table is not touched. *)
Theorem delete_transaction_frame (uid tid : Z) (s : db amount) :
  exists s',
    delete_transaction uid tid s = Some (tt, s') /\
    users s' = users s /\
    (forall t, In t (transactions s') <->
       In t (transactions s) /\ ~ (tx_id t = tid /\ tx_user_id t = uid)) /\
    (forall other, other <> uid ->
       filter (fun t => tx_user_id t =? other) (transactions s')
       = filter (fun t => tx_user_id t =? other) (transactions s)) /\
    (forall i, i <> tid ->
       filter (fun t => tx_id t =? i) (transactions s')
       = filter (fun t => tx_id t =? i) (transactions s)).
Proof.
  eexists. split; [reflexivity|]. cbn [users transactions].
  split; [reflexivity|]. split; [|split].
  - intros t. rewrite filter_In. unfold delete_match.
    rewrite negb_true_iff, andb_false_iff, !Z.eqb_neq. intuition lia.
  - intros other Ho. apply filter_filter_keep. intros t Ht.
    apply Z.eqb_eq in Ht. unfold delete_match.
    rewrite negb_true_iff, andb_false_iff, !Z.eqb_neq. lia.
  - intros i Hi. apply filter_filter_keep. intros t Ht.
    apply Z.eqb_eq in Ht. unfold delete_match.
    rewrite negb_true_iff, andb_false_iff, !Z.eqb_neq. lia.
Qed.

End LedgerFacts.

(** * A ledger in whole currency units *)

Definition alice : user := mkUser 7 "Alice" "alice@example.com" "secret".

Definition groceries : transaction Z :=
  mkTransaction 1 7 100 "debit" "groceries" "2024-12-13T08:15:00.500000".
Definition refund : transaction Z :=
  mkTransaction 2 7 20 "credit" "refund" "2024-12-25T18:30:00.125000".
Definition fuel : transaction Z :=
  mkTransaction 3 7 50 "debit" "fuel" "2025-01-12T10:00:00.250000".
Definition rent_of_bob : transaction Z :=
  mkTransaction 4 8 999 "debit" "rent" "2024-12-26T09:00:00.000001".

Definition ledger : db Z :=
  mkDb [alice; mkUser 8 "Bob" "bob@example.com" "hunter2"]
       [groceries; refund; fuel; rent_of_bob].

Definition morning_20_dec_2024 : datetime := mkDatetime 2024 12 20 8 0 0 0.

(** Exported at 08:00 on 2024-12-20 the window holds the groceries, a
    debit of 100, and the refund, a credit of 20. *)
Example morning_statement :
  export_pdf 0 Z.add alice morning_20_dec_2024 ledger
  = Some (mkStatement alice
            (mkPeriod (mkDatetime 2024 12 13 8 0 0 0)
                      (mkDatetime 2025 1 12 0 0 0 0)
                      (mkDatetime 2025 2 1 8 0 0 0))
            [to_line groceries; to_line refund] 100,
          ledger).
Proof. vm_compute. reflexivity. Qed.

Lemma total_due_sums_debits_witness :
  exists st,
    export_pdf 0 Z.add alice morning_20_dec_2024 ledger = Some (st, ledger) /\
    st_total_due st
      = fold_left Z.add
          (map li_amount
             (filter (fun t => String.eqb (li_type t) "debit") (st_items st)))
          0 /\
    (forall t, In t (transactions ledger) ->
       tx_user_id t = u_id alice ->
       String.leb (Iso.isoformat (p_start (st_period st))) (tx_timestamp t)
       = true ->
       String.leb (tx_timestamp t) (Iso.isoformat (p_end (st_period st)))
       = true ->
       In (mkLine (tx_amount t) (tx_type t) (tx_description t) (tx_timestamp t))
          (st_items st)) /\
    st_total_due st
      = fold_left Z.add
          (map li_amount
             (filter (fun t => String.eqb (li_type t) "debit")
                (filter (fun t => negb (String.eqb (li_type t) "credit"))
                   (st_items st))))
          0 /\
    ((forall t, In t (transactions ledger) ->
        tx_user_id t = u_id alice ->
        (String.leb (Iso.isoformat (p_start (st_period st))) (tx_timestamp t)
         && String.leb (tx_timestamp t) (Iso.isoformat (p_end (st_period st))))%bool
        = false) ->
     st_items st = [] /\ st_total_due st = 0).
Proof.
  apply (total_due_sums_debits Z 0 Z.add alice morning_20_dec_2024 ledger).
  - reflexivity.
  - unfold start_in_range, MINYEAR. simpl. lia.
  - unfold due_in_range, MAXYEAR. simpl. lia.
Defined.

(** The scenario of the specification: a credit and a debit inside the
    window and a debit outside of it. *)
Example credit_debit_scenario :
  let store :=
    mkDb [alice]
      [ mkTransaction 1 7 100 "credit" "payment" "2024-03-01T10:00:00.000500";
        mkTransaction 2 7 50 "debit" "purchase" "2024-03-05T16:45:10.120000";
        mkTransaction 3 7 999 "debit" "old purchase" "2024-01-20T11:00:00.300000" ] in
  export_pdf 0 Z.add alice (mkDatetime 2024 3 10 9 0 0 0) store
  = Some (mkStatement alice
            (mkPeriod (mkDatetime 2024 2 13 9 0 0 0)
                      (mkDatetime 2024 3 12 0 0 0 0)
                      (mkDatetime 2024 4 3 9 0 0 0))
            [ mkLine 100 "credit" "payment" "2024-03-01T10:00:00.000500";
              mkLine 50 "debit" "purchase" "2024-03-05T16:45:10.120000" ]
            50,
          store).
Proof. vm_compute. reflexivity. Qed.

(** ** C4 *)

(** C4 asks for every row of the user from the first instant of the start
    day to the last instant of the end day. The query compares with
    [bill_start.isoformat()], which carries the time of day of the export,
    and with [bill_end.isoformat()], which is midnight at the beginning of
    the 12th. Exported at noon on 2024-12-20, the statement lists the
    refund only: the groceries of the morning of the 13th and the fuel of
    the 12th are inside the whole-day window and are left out, and the
    total due is 0 instead of 150. *)
Theorem statement_window_skips_boundary_days :
  exists st,
    export_pdf 0 Z.add alice noon_20_dec_2024 ledger = Some (st, ledger) /\
    date (p_start (st_period st)) = (2024, 12, 13) /\
    date (p_end (st_period st)) = (2025, 1, 12) /\
    st_items st = [to_line refund] /\
    st_total_due st = 0 /\
    filter (fun t => (tx_user_id t =? u_id alice)
                     && whole_days_window (st_period st) (tx_timestamp t))
           (transactions ledger)
    = [groceries; refund; fuel].
Proof. eexists. repeat split. Qed.

(** The fuel of the 12th is not in the next statement either: no
    statement ever bills it. *)
Example fuel_never_billed :
  exists st,
    export_pdf 0 Z.add alice (mkDatetime 2025 1 20 12 0 0 0) ledger
    = Some (st, ledger) /\
    date (p_start (st_period st)) = (2025, 1, 13) /\
    st_items st = [].
Proof. eexists. repeat split. Qed.

(** On one calendar day the listing depends on the hour of the export. *)
Example listing_depends_on_hour :
  exists early late,
    export_pdf 0 Z.add alice (mkDatetime 2024 12 20 8 0 0 0) ledger
    = Some (early, ledger) /\
    export_pdf 0 Z.add alice (mkDatetime 2024 12 20 12 0 0 0) ledger
    = Some (late, ledger) /\
    st_items early = [to_line groceries; to_line refund] /\
    st_items late = [to_line refund].
Proof. eexists. eexists. repeat split. Qed.

(** ** C7 *)

(** C7 asks for the same statement whenever the user, the date [today]
    and the store are the same. [export_pdf] reads the clock itself and
    carries its time of day into the lower bound of the query: for the
    same user and the same store, on the same calendar day 2024-12-20,
    the export of 08:00 lists the groceries and the refund with a total
    due of 100, and the export of 12:00 lists the refund alone with a
    total due of 0. *)
Theorem statement_changes_within_a_day :
  exists early late,
    date morning_20_dec_2024 = date noon_20_dec_2024 /\
    export_pdf 0 Z.add alice morning_20_dec_2024 ledger = Some (early, ledger) /\
    export_pdf 0 Z.add alice noon_20_dec_2024 ledger = Some (late, ledger) /\
    date (p_start (st_period early)) = date (p_start (st_period late)) /\
    date (p_end (st_period early)) = date (p_end (st_period late)) /\
    date (p_due (st_period early)) = date (p_due (st_period late)) /\
    st_items early = [to_line groceries; to_line refund] /\
    st_total_due early = 100 /\
    st_items late = [to_line refund] /\
    st_total_due late = 0 /\
    early <> late.
Proof.
  eexists. eexists. repeat split. discriminate.
Qed.

(** Deleting with the id of a row and the id of another user removes
    nothing. *)
Example delete_needs_owner :
  delete_transaction 8 1 ledger = Some (tt, ledger)
  /\ delete_transaction 7 1 ledger
     = Some (tt, mkDb (users ledger) [refund; fuel; rent_of_bob]).
Proof. split; reflexivity. Qed.

(** * Timestamps as text

    [add_transaction] stores [datetime.now().isoformat()] and the
    statement query compares such texts with [BETWEEN]. The order of the
    texts is the order of the datetimes. *)

Module IsoOrder.

Import Iso.

Lemma compare_append (a b x y : string) :
  String.length a = String.length b ->
  String.compare (a ++ x) (b ++ y)
  = match String.compare a b with
    | Eq => String.compare x y
    | c => c
    end.
Proof.
  revert b. induction a as [|c a IH]; intros [|c' b] H; simpl in *;
    try discriminate; [reflexivity|].
  destruct (Ascii.compare c c'); trivial. apply IH. congruence.
Qed.

Lemma length_zpad (w : nat) (n : Z) : String.length (zpad w n) = w.
Proof.
  revert n. induction w as [|w IH]; intros n; simpl; [reflexivity|].
  rewrite length_append, IH. simpl. lia.
Qed.

Lemma digit_compare (n m : Z) :
  Ascii.compare (digit n) (digit m) = (n mod 10 ?= m mod 10).
Proof.
  unfold Ascii.compare, digit.
  pose proof (Z.mod_pos_bound n 10 ltac:(lia)) as Bn.
  pose proof (Z.mod_pos_bound m 10 ltac:(lia)) as Bm.
  rewrite !N_ascii_embedding by lia.
  rewrite <- N2Z.inj_compare, !N2Z.inj_add, !Z2N.id by lia.
  apply Z.add_compare_mono_l.
Qed.

Lemma compare_by_digits (n m : Z) :
  (n ?= m) = match n / 10 ?= m / 10 with
             | Eq => n mod 10 ?= m mod 10
             | c => c
             end.
Proof.
  destruct (Z.compare_spec (n / 10) (m / 10));
    destruct (Z.compare_spec (n mod 10) (m mod 10));
    destruct (Z.compare_spec n m); trivial; exfalso;
    Z.div_mod_to_equations; lia.
Qed.

Lemma mod_digits (n p : Z) :
  0 < p ->
  (n mod (10 * p)) / 10 = (n / 10) mod p /\ (n mod (10 * p)) mod 10 = n mod 10.
Proof.
  intros Hp. rewrite Z.rem_mul_r by lia.
  pose proof (Z.mod_pos_bound n 10 ltac:(lia)) as B.
  generalize dependent (n mod 10). intros a B.
  generalize ((n / 10) mod p). intros b.
  Z.div_mod_to_equations. lia.
Qed.

(** Numbers printed with the same fixed width compare as numbers. *)
Lemma zpad_compare (w : nat) (n m : Z) :
  String.compare (zpad w n) (zpad w m)
  = (n mod 10 ^ Z.of_nat w ?= m mod 10 ^ Z.of_nat w).
Proof.
  revert n m. induction w as [|w IH]; intros n m.
  - simpl. now rewrite !Z.mod_1_r.
  - cbn [zpad]. rewrite compare_append by now rewrite !length_zpad.
    rewrite IH. simpl String.compare. rewrite digit_compare.
    replace (10 ^ Z.of_nat (S w)) with (10 * 10 ^ Z.of_nat w)
      by (rewrite Nat2Z.inj_succ, Z.pow_succ_r by lia; reflexivity).
    assert (P : 0 < 10 ^ Z.of_nat w) by (apply Z.pow_pos_nonneg; lia).
    rewrite (compare_by_digits (n mod (10 * 10 ^ Z.of_nat w))
                               (m mod (10 * 10 ^ Z.of_nat w))).
    destruct (mod_digits n _ P) as [-> ->].
    destruct (mod_digits m _ P) as [-> ->].
    destruct (n / 10 mod 10 ^ Z.of_nat w ?= m / 10 mod 10 ^ Z.of_nat w);
      trivial.
    destruct (n mod 10 ?= m mod 10); reflexivity.
Qed.

Lemma zpad_compare_small (w : nat) (n m : Z) :
  0 <= n < 10 ^ Z.of_nat w -> 0 <= m < 10 ^ Z.of_nat w ->
  String.compare (zpad w n) (zpad w m) = (n ?= m).
Proof.
  intros Hn Hm. rewrite zpad_compare, !Z.mod_small by assumption. reflexivity.
Qed.

Lemma compare_separator (c x y : string) :
  String.compare (c ++ x) (c ++ y) = String.compare x y.
Proof.
  induction c as [|ch c IH]; simpl; [reflexivity|].
  unfold Ascii.compare. now rewrite N.compare_refl.
Qed.

(** The optional [.ffffff] part compares as the microseconds do. *)
Lemma fraction_compare (ua ub : Z) :
  0 <= ua <= 999999 -> 0 <= ub <= 999999 ->
  String.compare
    (if ua =? 0 then EmptyString else "." ++ zpad 6 ua)
    (if ub =? 0 then EmptyString else "." ++ zpad 6 ub)
  = (ua ?= ub).
Proof.
  intros Ha Hb.
  destruct (ua =? 0) eqn:Ea; destruct (ub =? 0) eqn:Eb;
    rewrite ?Z.eqb_eq, ?Z.eqb_neq in Ea, Eb; subst.
  - reflexivity.
  - simpl. symmetry. apply Z.compare_lt_iff. lia.
  - simpl. symmetry. apply Z.compare_gt_iff. lia.
  - rewrite compare_separator. apply zpad_compare_small; simpl; lia.
Qed.

(** The texts [isoformat] produces are ordered as the datetimes are. *)
Theorem isoformat_compare (a b : datetime) :
  valid a = true -> valid b = true ->
  String.compare (isoformat a) (isoformat b) = cmp a b.
Proof.
  intros Va Vb.
  apply valid_spec in Va. destruct Va as [(Ya & Ma & Da) Ta].
  apply valid_spec in Vb. destruct Vb as [(Yb & Mb & Db) Tb].
  apply check_time_fields_spec in Ta, Tb.
  pose proof (days_in_month_ge_28 (year a) _ Ma) as La.
  pose proof (days_in_month_ge_28 (year b) _ Mb) as Lb.
  unfold MINYEAR, MAXYEAR in *.
  unfold isoformat, cmp, fields, lex_compare.
  repeat (rewrite compare_append by (now rewrite !length_zpad);
          rewrite zpad_compare_small by (simpl; lia);
          rewrite ?compare_separator).
  rewrite fraction_compare by lia.
  repeat match goal with
         | |- context [?x ?= ?y] => destruct (x ?= y)
         end; reflexivity.
Qed.

Lemma isoformat_compare_witness :
  String.compare (isoformat morning_5_jan_2024) (isoformat noon_20_dec_2024)
  = cmp morning_5_jan_2024 noon_20_dec_2024.
Proof.
  apply (isoformat_compare morning_5_jan_2024 noon_20_dec_2024); reflexivity.
Defined.

(** Hence [BETWEEN] on such texts is the chronological test. *)
Lemma between_isoformat (t lo hi : datetime) :
  valid t = true -> valid lo = true -> valid hi = true ->
  between (isoformat t) (isoformat lo) (isoformat hi) = (le lo t && le t hi)%bool.
Proof.
  intros Vt Vlo Vhi. unfold between, String.leb, le.
  now rewrite !isoformat_compare.
Qed.

End IsoOrder.

(** * More on the billing period *)

(** A period has as many days as its start month, and the due date
    comes 20 to 23 days after the period end. *)
Theorem period_length_and_grace (today : datetime) :
  valid today = true -> start_in_range today -> due_in_range today ->
  exists p,
    billing_period today = Some p /\
    toordinal (p_end p) - toordinal (p_start p) + 1
    = days_in_month (year (p_start p)) (month (p_start p)) /\
    28 <= toordinal (p_end p) - toordinal (p_start p) + 1 <= 31 /\
    20 <= toordinal (p_due p) - toordinal (p_end p) <= 23.
Proof.
  intros Hv Hs Hd.
  destruct (billing_period_some today Hv Hs Hd)
    as (s & e & d & _ & _ & _ & Ep & Vs & _ & _ & Oe & Od & _).
  exists (mkPeriod s e d). cbn [p_start p_end p_due].
  pose proof (days_in_month_ge_28 (year s) (month s)
                (proj1 (valid_date s Vs))) as B.
  repeat split; trivial; lia.
Qed.

Lemma period_length_and_grace_witness :
  exists p,
    billing_period morning_12_mar_2024 = Some p /\
    toordinal (p_end p) - toordinal (p_start p) + 1
    = days_in_month (year (p_start p)) (month (p_start p)) /\
    28 <= toordinal (p_end p) - toordinal (p_start p) + 1 <= 31 /\
    20 <= toordinal (p_due p) - toordinal (p_end p) <= 23.
Proof.
  apply (period_length_and_grace morning_12_mar_2024).
  - reflexivity.
  - unfold start_in_range, MINYEAR. simpl. lia.
  - unfold due_in_range, MAXYEAR. simpl. lia.
Defined.

(** The periods partition the calendar: a date lies between the start and
    the end of today's period exactly when its own period starts on the
    same date. *)
Theorem same_period_iff_same_start (today d : datetime) :
  valid today = true -> valid d = true ->
  start_in_range today -> end_in_range today ->
  exists s e,
    bill_start today = Some s /\ bill_end s = Some e /\
    ((date_le (date s) (date d) && date_le (date d) (date e))%bool = true
     <-> exists s', bill_start d = Some s' /\ date s' = date s).
Proof.
  intros Hv Vd Hs He.
  pose proof (bill_start_eq today Hv Hs) as Es'.
  destruct (bill_start today) as [s|] eqn:Es; [clear Es' | discriminate].
  destruct (bill_start_shape today s Hv Es) as (Vs & D13 & _ & C).
  pose proof Vs as Vs'. apply valid_spec in Vs'.
  destruct Vs' as [(Hy & Hm & _) _].
  pose proof Hv as Hv'. apply valid_spec in Hv'.
  destruct Hv' as [(Hy' & Hm' & Hd') _].
  pose proof Vd as Vd'. apply valid_spec in Vd'.
  destruct Vd' as [(Yd & Md & Dd) _].
  assert (R : year s < MAXYEAR \/ month s < 12)
    by (unfold end_in_range, MINYEAR, MAXYEAR in *; lia).
  pose proof (bill_end_eq s Hm Hy R) as Ee.
  exists s. eexists. split; [reflexivity|]. split; [exact Ee|].
  unfold MINYEAR, MAXYEAR in *.
  assert (E : date (if month s =? 12
                    then mkDatetime (year s + 1) 1 12 0 0 0 0
                    else mkDatetime (year s) (month s + 1) 12 0 0 0 0)
              = (if month s =? 12 then (year s + 1, 1, 12)
                 else (year s, month s + 1, 12)))
    by (destruct (month s =? 12); reflexivity).
  rewrite E. clear E. unfold date. rewrite D13.
  rewrite andb_true_iff. split.
  - intros [L U].
    apply date_le_iff in L.
    assert (U' : (month s = 12 /\
                  (year d < year s + 1 \/
                   (year d = year s + 1 /\
                    (month d < 1 \/ (month d = 1 /\ day d <= 12)))))
                 \/ (month s <> 12 /\
                     (year d < year s \/
                      (year d = year s /\
                       (month d < month s + 1 \/
                        (month d = month s + 1 /\ day d <= 12)))))).
    { destruct (month s =? 12) eqn:E12;
        [apply Z.eqb_eq in E12 | apply Z.eqb_neq in E12];
        apply date_le_iff in U; [left | right]; split; trivial. }
    clear U.
    assert (Sd : start_in_range d) by (unfold start_in_range, MINYEAR; lia).
    pose proof (bill_start_eq d Vd Sd) as Ed.
    eexists. split; [exact Ed|].
    destruct (13 <=? day d) eqn:E13;
      [apply Z.leb_le in E13 | apply Z.leb_gt in E13];
      [| destruct (month d =? 1) eqn:E1;
         [apply Z.eqb_eq in E1 | apply Z.eqb_neq in E1]];
      cbn [year month day]; f_equal; try f_equal; lia.
  - intros (s' & Ed & Eq).
    destruct (bill_start_shape d s' Vd Ed) as (_ & D13' & _ & C').
    injection Eq as Ey Em _.
    split.
    + apply date_le_iff. lia.
    + destruct (month s =? 12) eqn:E12;
        [apply Z.eqb_eq in E12 | apply Z.eqb_neq in E12];
        apply date_le_iff; lia.
Qed.

Definition afternoon_2_jan_2025 : datetime := mkDatetime 2025 1 2 17 45 0 0.

Lemma same_period_iff_same_start_witness :
  exists s e,
    bill_start noon_20_dec_2024 = Some s /\ bill_end s = Some e /\
    ((date_le (date s) (date afternoon_2_jan_2025)
      && date_le (date afternoon_2_jan_2025) (date e))%bool = true
     <-> exists s', bill_start afternoon_2_jan_2025 = Some s'
                    /\ date s' = date s).
Proof.
  apply (same_period_iff_same_start noon_20_dec_2024 afternoon_2_jan_2025).
  - reflexivity.
  - reflexivity.
  - unfold start_in_range, MINYEAR. simpl. lia.
  - unfold end_in_range, MAXYEAR. simpl. lia.
Defined.

(** * The other operations on the store *)

Definition ADMIN_EMAIL : string := "admin@example.com".

(** What the page shows after an operation: [st.success], [st.warning]
    or [st.error]. *)
Inductive notice : Type := Success | Warning.

Inductive password_notice : Type :=
| PasswordUpdated
| CurrentIncorrect
| NewMismatch
| NewEmpty.

Section Operations.

Variable amount : Type.

(** The ids are INTEGER PRIMARY KEY AUTOINCREMENT: the value SQLite gives
    a new row is a parameter, [rowid]; SQLite takes it larger than every
    id of the table. *)
Definition fresh_user_id (rowid : Z) (s : db amount) : Prop :=
  forall u, In u (users s) -> u_id u < rowid.

Definition fresh_transaction_id (rowid : Z) (s : db amount) : Prop :=
  forall t, In t (transactions s) -> tx_id t < rowid.

(** [add_user] (lines 38-44). [email] is UNIQUE: an INSERT with an email
    of the table raises [IntegrityError], which is caught and answered by
    a warning; nothing is written. *)
Definition add_user (name email password : string) (rowid : Z)
  : sql amount notice :=
  fun s =>
    if existsb (fun u => String.eqb (u_email u) email) (users s)
    then Some (Warning, s)
    else Some (Success,
               mkDb (users s ++ [mkUser rowid name email password])
                    (transactions s)).

(** [delete_user] (lines 46-50): the row of [users], then the rows of
    [transactions] of that user. *)
Definition delete_user (user_id : Z) : sql amount unit :=
  fun s =>
    Some (tt, mkDb (filter (fun u => negb (u_id u =? user_id)) (users s))
                   (filter (fun t => negb (tx_user_id t =? user_id))
                           (transactions s))).

(** [authenticate_user] (lines 52-54): [fetchone()] is the first row of
    the result, or [None]. *)
Definition authenticate_user (email password : string)
  : sql amount (option user) :=
  fun s =>
    Some (find (fun u => String.eqb (u_email u) email
                         && String.eqb (u_password u) password)
               (users s), s).

(** [add_transaction] (lines 56-63), with the reading of the clock,
    [now], made a parameter. Foreign keys are not enforced by SQLite
    unless asked for, and the script does not ask: [user_id] is stored as
    given. *)
Definition add_transaction (user_id : Z) (a : amount)
    (type_ description : string) (now : datetime) (rowid : Z)
  : sql amount unit :=
  fun s =>
    Some (tt, mkDb (users s)
                   (transactions s
                    ++ [mkTransaction rowid user_id a type_ description
                          (Iso.isoformat now)])).

(** A row of [SELECT id, amount, type, description, timestamp]. *)
Definition history_row : Type := Z * amount * string * string * string.

Definition to_history (t : transaction amount) : history_row :=
  (tx_id t, tx_amount t, tx_type t, tx_description t, tx_timestamp t).

(** [get_transactions] (lines 70-72). *)
Definition get_transactions (user_id : Z) : sql amount (list history_row) :=
  fun s =>
    Some (map to_history
            (filter (fun t => tx_user_id t =? user_id) (transactions s)), s).

(** The "Update Password" button (lines 211-221 and 259-269). [user] is
    the row the login returned, [email] the email typed at the login. *)
Definition set_password (email new_password : string) (u : user) : user :=
  if String.eqb (u_email u) email
  then mkUser (u_id u) (u_name u) (u_email u) new_password
  else u.

Definition update_password (u : user) (email : string)
    (current_password new_password confirm_password : string)
  : sql amount password_notice :=
  fun s =>
    if negb (String.eqb current_password (u_password u))
    then Some (CurrentIncorrect, s)
    else if negb (String.eqb new_password confirm_password)
    then Some (NewMismatch, s)
    else if String.eqb new_password ""
    then Some (NewEmpty, s)
    else Some (PasswordUpdated,
               mkDb (map (set_password email new_password) (users s))
                    (transactions s)).

(** The users offered by the "Delete User" tab (line 167). *)
Definition deletable_users (s : db amount) : list (Z * string * string) :=
  map (fun u => (u_id u, u_name u, u_email u))
      (filter (fun u => negb (String.eqb (u_email u) ADMIN_EMAIL)) (users s)).

(** Line 116: the date cell of a row of the statement. *)
Definition date_cell (t : line_item amount) : string :=
  substring 0 19 (li_timestamp t).

End Operations.

Arguments fresh_user_id {amount}.
Arguments fresh_transaction_id {amount}.
Arguments add_user {amount}.
Arguments delete_user {amount}.
Arguments authenticate_user {amount}.
Arguments add_transaction {amount}.
Arguments to_history {amount}.
Arguments get_transactions {amount}.
Arguments update_password {amount}.
Arguments deletable_users {amount}.
Arguments date_cell {amount}.

Section OperationFacts.

Variable amount : Type.

Lemma find_app_none {A : Type} (p : A -> bool) (l l' : list A) :
  find p l = None -> find p (l ++ l') = find p l'.
Proof.
  induction l as [|x l IH]; simpl; [reflexivity|].
  destruct (p x); [discriminate | exact IH].
Qed.

Lemma find_app_keep {A : Type} (p : A -> bool) (l : list A) (x : A) :
  p x = false -> find p (l ++ [x]) = find p l.
Proof.
  intros H. induction l as [|y l IH]; simpl.
  - now rewrite H.
  - destruct (p y); [reflexivity | exact IH].
Qed.

Lemma find_filter_keep {A : Type} (keep p : A -> bool) (l : list A) :
  (forall x, In x l -> p x = true -> keep x = true) ->
  find p (filter keep l) = find p l.
Proof.
  induction l as [|x l IH]; intros H; [reflexivity|]. simpl.
  destruct (p x) eqn:P.
  - rewrite (H x (or_introl eq_refl) P). simpl. now rewrite P.
  - destruct (keep x); simpl; rewrite ?P; apply IH;
      intros y Hy; apply H; now right.
Qed.

Lemma email_absent (email : string) (l : list user) :
  existsb (fun u => String.eqb (u_email u) email) l = false <->
  forall u, In u l -> u_email u <> email.
Proof.
  split.
  - intros H u Hu E.
    assert (X : existsb (fun u => String.eqb (u_email u) email) l = true).
    { apply existsb_exists. exists u. split; trivial. now apply String.eqb_eq. }
    congruence.
  - intros H. destruct (existsb _ l) eqn:E; trivial.
    apply existsb_exists in E. destruct E as (u & Hu & E).
    apply String.eqb_eq in E. now destruct (H u Hu).
Qed.

(** [add_user]: a warning exactly when the email is taken, and then
    nothing is written; otherwise the new user can log in with the
    password given, stored as it was typed, and the logins under every
    other email are as before. *)
Theorem add_user_then_login (name email password : string) (rowid : Z)
    (s : db amount) :
  exists n s',
    add_user name email password rowid s = Some (n, s') /\
    (n = Warning <-> exists u, In u (users s) /\ u_email u = email) /\
    (n = Warning -> s' = s) /\
    (n = Success ->
       authenticate_user email password s'
       = Some (Some (mkUser rowid name email password), s')
       /\ transactions s' = transactions s
       /\ forall email' password', email' <> email ->
            authenticate_user email' password' s'
            = Some (find (fun u => String.eqb (u_email u) email'
                                   && String.eqb (u_password u) password')
                         (users s), s')).
Proof.
  unfold add_user.
  destruct (existsb (fun u => String.eqb (u_email u) email) (users s)) eqn:E.
  - exists Warning, s. split; [reflexivity|]. split; [|split].
    + split; [intros _ | reflexivity].
      apply existsb_exists in E. destruct E as (u & Hu & E).
      apply String.eqb_eq in E. eauto.
    + reflexivity.
    + discriminate.
  - eexists. eexists. split; [reflexivity|]. split; [|split].
    + split; [discriminate|]. intros (u & Hu & Eu).
      exfalso. exact (proj1 (email_absent email (users s)) E u Hu Eu).
    + discriminate.
    + intros _. unfold authenticate_user. cbn [users transactions].
      split; [|split; [reflexivity|]].
      * rewrite find_app_none.
        -- simpl. now rewrite !String.eqb_refl.
        -- destruct (find _ (users s)) as [u|] eqn:F; trivial.
           apply find_some in F. destruct F as [Hu F].
           apply andb_true_iff in F. destruct F as [F _].
           apply String.eqb_eq in F.
           exfalso. exact (proj1 (email_absent email (users s)) E u Hu F).
      * intros email' password' N. rewrite find_app_keep; [reflexivity|].
        cbn [u_email u_password]. apply andb_false_iff. left.
        apply String.eqb_neq. congruence.
Qed.

(** [delete_user] removes the user and every transaction of the user,
    and nothing else: the history of the user is empty afterwards and the
    histories of the others are as before. *)
Theorem delete_user_cascades (user_id : Z) (s : db amount) :
  exists s',
    delete_user user_id s = Some (tt, s') /\
    (forall u, In u (users s') <-> In u (users s) /\ u_id u <> user_id) /\
    (forall t, In t (transactions s') <->
       In t (transactions s) /\ tx_user_id t <> user_id) /\
    get_transactions user_id s' = Some ([], s') /\
    (forall other, other <> user_id ->
       exists l, get_transactions other s = Some (l, s)
                 /\ get_transactions other s' = Some (l, s')).
Proof.
  eexists. split; [reflexivity|]. cbn [users transactions].
  split; [|split; [|split]].
  - intros u. rewrite filter_In, negb_true_iff, Z.eqb_neq. reflexivity.
  - intros t. rewrite filter_In, negb_true_iff, Z.eqb_neq. reflexivity.
  - unfold get_transactions. cbn [transactions]. f_equal. f_equal.
    replace (filter _ (filter _ (transactions s))) with (@nil (transaction amount));
      [reflexivity|].
    symmetry. induction (transactions s) as [|t l IH]; [reflexivity|]. simpl.
    destruct (tx_user_id t =? user_id) eqn:E; simpl; [exact IH|].
    rewrite E. exact IH.
  - intros other N. eexists. split; [reflexivity|].
    unfold get_transactions. cbn [transactions]. f_equal. f_equal. f_equal.
    apply filter_filter_keep. intros t Ht. apply Z.eqb_eq in Ht.
    apply negb_true_iff, Z.eqb_neq. lia.
Qed.

(** ** Keys and references *)

(** The constraints of the schema: the ids of each table are pairwise
    different (PRIMARY KEY) and so are the emails (UNIQUE). *)
Definition keys_unique (s : db amount) : Prop :=
  NoDup (map u_id (users s)) /\ NoDup (map u_email (users s))
  /\ NoDup (map tx_id (transactions s)).

(** Every transaction belongs to a user of the table. *)
Definition owners_exist (s : db amount) : Prop :=
  forall t, In t (transactions s) ->
    exists u, In u (users s) /\ u_id u = tx_user_id t.

(** [m] ends without exception in a store where [P] holds. *)
Definition leaves {A : Type} (P : db amount -> Prop) (m : sql amount A)
    (s : db amount) : Prop :=
  exists a s', m s = Some (a, s') /\ P s'.

Lemma NoDup_map_filter {A B : Type} (f : A -> B) (keep : A -> bool) (l : list A) :
  NoDup (map f l) -> NoDup (map f (filter keep l)).
Proof.
  induction l as [|x l IH]; simpl; intros H; [constructor|].
  inversion H as [|? ? Hx Hl]; subst.
  destruct (keep x); simpl; [constructor|]; auto.
  intros Hin. apply Hx. apply in_map_iff in Hin.
  destruct Hin as (y & Ey & Hy). apply filter_In in Hy.
  apply in_map_iff. exists y. tauto.
Qed.

Lemma NoDup_map_snoc {A B : Type} (f : A -> B) (l : list A) (x : A) :
  NoDup (map f l) -> (forall y, In y l -> f y <> f x) ->
  NoDup (map f (l ++ [x])).
Proof.
  intros H N. rewrite map_app. simpl.
  apply NoDup_app; trivial.
  - repeat constructor. intros [].
  - intros b Hb [<-|[]]. apply in_map_iff in Hb.
    destruct Hb as (y & Ey & Hy). exact (N y Hy Ey).
Qed.

Lemma set_password_fields (email new_password : string) (l : list user) :
  map u_id (map (set_password email new_password) l) = map u_id l
  /\ map u_email (map (set_password email new_password) l) = map u_email l
  /\ map u_name (map (set_password email new_password) l) = map u_name l.
Proof.
  rewrite !map_map. repeat split; apply map_ext; intros u;
    unfold set_password; destruct (String.eqb (u_email u) email); reflexivity.
Qed.

(** Every operation keeps the ids and the emails pairwise different,
    given that the id of a new row is larger than the ids of its table. *)
Theorem keys_stay_unique (s : db amount) :
  keys_unique s ->
  (forall name email password rowid, fresh_user_id rowid s ->
     leaves keys_unique (add_user name email password rowid) s) /\
  (forall user_id a type_ description now rowid,
     fresh_transaction_id rowid s ->
     leaves keys_unique
       (add_transaction user_id a type_ description now rowid) s) /\
  (forall user_id, leaves keys_unique (delete_user user_id) s) /\
  (forall user_id transaction_id,
     leaves keys_unique (delete_transaction user_id transaction_id) s) /\
  (forall u email current new confirm,
     leaves keys_unique (update_password u email current new confirm) s).
Proof.
  intros (Hi & He & Ht). unfold leaves, keys_unique.
  split; [|split; [|split; [|split]]].
  - intros name email password rowid F. unfold add_user.
    destruct (existsb _ (users s)) eqn:E.
    + eexists. eexists. split; [reflexivity|]. auto.
    + eexists. eexists. split; [reflexivity|]. cbn [users transactions].
      repeat split; trivial.
      * apply NoDup_map_snoc; trivial. intros y Hy. cbn [u_id].
        specialize (F y Hy). lia.
      * apply NoDup_map_snoc; trivial. intros y Hy. cbn [u_email].
        exact (proj1 (email_absent email (users s)) E y Hy).
  - intros user_id a type_ description now rowid F.
    eexists. eexists. split; [reflexivity|]. cbn [users transactions].
    repeat split; trivial.
    apply NoDup_map_snoc; trivial. intros y Hy. cbn [tx_id].
    specialize (F y Hy). lia.
  - intros user_id. eexists. eexists. split; [reflexivity|].
    cbn [users transactions]. repeat split; now apply NoDup_map_filter.
  - intros user_id transaction_id. eexists. eexists. split; [reflexivity|].
    cbn [users transactions]. repeat split; trivial.
    now apply NoDup_map_filter.
  - intros u email current new confirm. unfold update_password.
    destruct (negb _); [eexists; eexists; split; [reflexivity|]; auto|].
    destruct (negb _); [eexists; eexists; split; [reflexivity|]; auto|].
    destruct (String.eqb new "");
      [eexists; eexists; split; [reflexivity|]; auto|].
    eexists. eexists. split; [reflexivity|]. cbn [users transactions].
    destruct (set_password_fields email new (users s)) as (-> & -> & _).
    auto.
Qed.

(** Deleting a user leaves no orphan transaction, and the other
    operations create none as long as a transaction is added for a user
    of the table, which is what the page offers. *)
Theorem owners_stay (s : db amount) :
  owners_exist s ->
  (forall user_id, leaves owners_exist (delete_user user_id) s) /\
  (forall u a type_ description now rowid, In u (users s) ->
     leaves owners_exist
       (add_transaction (u_id u) a type_ description now rowid) s) /\
  (forall name email password rowid,
     leaves owners_exist (add_user name email password rowid) s) /\
  (forall user_id transaction_id,
     leaves owners_exist (delete_transaction user_id transaction_id) s) /\
  (forall u email current new confirm,
     leaves owners_exist (update_password u email current new confirm) s).
Proof.
  intros H. unfold leaves, owners_exist.
  split; [|split; [|split; [|split]]].
  - intros user_id. eexists. eexists. split; [reflexivity|].
    cbn [users transactions]. intros t Ht. apply filter_In in Ht.
    destruct Ht as [Ht N]. apply negb_true_iff, Z.eqb_neq in N.
    destruct (H t Ht) as (u & Hu & E). exists u. split; trivial.
    apply filter_In. split; trivial. apply negb_true_iff, Z.eqb_neq. lia.
  - intros u a type_ description now rowid Hu.
    eexists. eexists. split; [reflexivity|]. cbn [users transactions].
    intros t Ht. apply in_app_iff in Ht. destruct Ht as [Ht|[<-|[]]]; auto.
    exists u. split; trivial.
  - intros name email password rowid. unfold add_user.
    destruct (existsb _ (users s)).
    + eexists. eexists. split; [reflexivity|]. exact H.
    + eexists. eexists. split; [reflexivity|]. cbn [users transactions].
      intros t Ht. destruct (H t Ht) as (u & Hu & E). exists u.
      split; trivial. apply in_app_iff. now left.
  - intros user_id transaction_id. eexists. eexists. split; [reflexivity|].
    cbn [users transactions]. intros t Ht. apply filter_In in Ht.
    exact (H t (proj1 Ht)).
  - intros u email current new confirm. unfold update_password.
    destruct (negb _); [eexists; eexists; split; [reflexivity|]; exact H|].
    destruct (negb _); [eexists; eexists; split; [reflexivity|]; exact H|].
    destruct (String.eqb new "");
      [eexists; eexists; split; [reflexivity|]; exact H|].
    eexists. eexists. split; [reflexivity|]. cbn [users transactions].
    intros t Ht. destruct (H t Ht) as (v & Hv & E).
    exists (set_password email new v). split.
    + now apply in_map.
    + rewrite <- E. unfold set_password.
      destruct (String.eqb (u_email v) email); reflexivity.
Qed.

(** ** Histories *)

(** [add_transaction] puts the new row, stamped with the isoformat of
    the clock, at the end of the history of its user; the histories of
    the other users and the users table are as before. *)
Theorem add_transaction_then_history (user_id : Z) (a : amount)
    (type_ description : string) (now : datetime) (rowid : Z) (s : db amount) :
  exists s' l,
    add_transaction user_id a type_ description now rowid s = Some (tt, s') /\
    users s' = users s /\
    get_transactions user_id s = Some (l, s) /\
    get_transactions user_id s'
    = Some (l ++ [(rowid, a, type_, description, Iso.isoformat now)], s') /\
    (forall other, other <> user_id ->
       exists l', get_transactions other s = Some (l', s)
                  /\ get_transactions other s' = Some (l', s')).
Proof.
  eexists. eexists. split; [reflexivity|]. split; [reflexivity|].
  split; [reflexivity|]. unfold get_transactions. cbn [transactions]. split.
  - rewrite filter_app, map_app. cbn [filter tx_user_id].
    rewrite Z.eqb_refl. reflexivity.
  - intros other N. eexists. split; [reflexivity|].
    rewrite filter_app. cbn [filter tx_user_id].
    apply Z.eqb_neq in N. rewrite Z.eqb_sym, N, app_nil_r. reflexivity.
Qed.

Lemma filter_out_one {A : Type} (f : A -> Z) (x : A) (l : list A) :
  NoDup (map f l) -> In x l ->
  S (List.length (filter (fun y => negb (f y =? f x)) l)) = List.length l.
Proof.
  induction l as [|y l IH]; simpl; intros H Hin; [contradiction|].
  inversion H as [|? ? Hy Hl]; subst. destruct Hin as [->|Hin].
  - rewrite Z.eqb_refl. simpl. f_equal.
    rewrite forallb_filter_id; trivial. apply forallb_forall.
    intros z Hz. apply negb_true_iff, Z.eqb_neq. intros E.
    apply Hy. rewrite <- E. now apply in_map.
  - destruct (f y =? f x) eqn:E.
    + apply Z.eqb_eq in E. exfalso. apply Hy. rewrite E. now apply in_map.
    + simpl. f_equal. now apply IH.
Qed.

Lemma filter_delete_mine (user_id transaction_id : Z)
    (l : list (transaction amount)) :
  filter (fun t => tx_user_id t =? user_id)
    (filter (fun t => negb (delete_match user_id transaction_id t)) l)
  = filter (fun t => negb (tx_id t =? transaction_id))
      (filter (fun t => tx_user_id t =? user_id) l).
Proof.
  induction l as [|x xs IH]; [reflexivity|]. unfold delete_match in *. simpl.
  destruct (tx_user_id x =? user_id) eqn:Ex; simpl.
  - rewrite andb_true_r.
    destruct (tx_id x =? transaction_id); simpl; rewrite ?Ex; [|f_equal]; exact IH.
  - rewrite andb_false_r. simpl. rewrite Ex. exact IH.
Qed.

Lemma history_filter (transaction_id : Z) (l : list (transaction amount)) :
  map to_history (filter (fun t => negb (tx_id t =? transaction_id)) l)
  = filter (fun r => negb (fst (fst (fst (fst r))) =? transaction_id))
      (map to_history l).
Proof.
  induction l as [|x xs IH]; [reflexivity|].
  simpl. destruct (tx_id x =? transaction_id); simpl; [|f_equal]; exact IH.
Qed.

(** The "Delete Transaction" tab offers the rows of
    [get_transactions(user)] and deletes with that user and the id of the
    row chosen: the row is removed, the history of the user is shorter by
    exactly one, and the rows left are the same in the same order. *)
Theorem delete_from_history (user_id : Z) (row : history_row amount)
    (l : list (history_row amount)) (s : db amount) :
  NoDup (map tx_id (transactions s)) ->
  get_transactions user_id s = Some (l, s) ->
  In row l ->
  exists s' l',
    delete_transaction user_id (fst (fst (fst (fst row)))) s = Some (tt, s') /\
    get_transactions user_id s' = Some (l', s') /\
    l' = filter (fun r => negb (fst (fst (fst (fst r)))
                                =? fst (fst (fst (fst row))))) l /\
    ~ In row l' /\
    S (List.length l') = List.length l.
Proof.
  intros N G Hin. unfold get_transactions in G. injection G as <-.
  apply in_map_iff in Hin. destruct Hin as (t & <- & Ht).
  apply filter_In in Ht. destruct Ht as [Ht Eu]. apply Z.eqb_eq in Eu.
  cbn [to_history fst].
  set (mine := fun t0 : transaction amount => tx_user_id t0 =? user_id).
  pose proof (filter_delete_mine user_id (tx_id t) (transactions s)) as F.
  fold mine in F.
  eexists. eexists. split; [reflexivity|].
  unfold get_transactions. cbn [transactions]. fold mine. rewrite F.
  split; [reflexivity|].
  pose proof (history_filter (tx_id t) (filter mine (transactions s))) as M.
  split; [exact M|]. split.
  - rewrite M. intros Hin. apply filter_In in Hin. destruct Hin as [_ Hin].
    cbn [fst] in Hin. rewrite Z.eqb_refl in Hin. discriminate.
  - rewrite !List.length_map. apply (filter_out_one tx_id t).
    + now apply NoDup_map_filter.
    + apply filter_In. split; trivial. unfold mine. now apply Z.eqb_eq.
Qed.

(** ** Passwords *)

Lemma find_unique_email (email password : string) (u : user) (l : list user) :
  NoDup (map u_email l) -> In u l -> u_email u = email ->
  find (fun v => String.eqb (u_email v) email
                 && String.eqb (u_password v) password) l
  = if String.eqb (u_password u) password then Some u else None.
Proof.
  induction l as [|x l IH]; simpl; intros N Hin E; [contradiction|].
  inversion N as [|? ? Hx Hl]; subst. destruct Hin as [->|Hin].
  - rewrite String.eqb_refl. simpl.
    destruct (String.eqb (u_password u) password); trivial.
    destruct (find _ l) as [v|] eqn:F; trivial.
    apply find_some in F. destruct F as [Hv F].
    apply andb_true_iff in F. destruct F as [F _]. apply String.eqb_eq in F.
    exfalso. apply Hx. rewrite <- F. now apply in_map.
  - destruct (String.eqb (u_email x) (u_email u)) eqn:Ex.
    + apply String.eqb_eq in Ex. exfalso. apply Hx. rewrite Ex. now apply in_map.
    + simpl. now apply IH.
Qed.

(** A user who is logged in and gives two equal, non-empty new passwords
    gets the password changed: the login with the new password returns
    the same id, name and email, the login with the old password fails
    when the two differ, and nothing else of the store changes. *)
Theorem update_password_then_login (u : user) (email password new_password : string)
    (s : db amount) :
  NoDup (map u_email (users s)) ->
  authenticate_user email password s = Some (Some u, s) ->
  new_password <> EmptyString ->
  exists s',
    update_password u email password new_password new_password s
    = Some (PasswordUpdated, s') /\
    authenticate_user email new_password s'
    = Some (Some (mkUser (u_id u) (u_name u) email new_password), s') /\
    (new_password <> password ->
     authenticate_user email password s' = Some (None, s')) /\
    transactions s' = transactions s /\
    (forall v, In v (users s) -> u_email v <> email -> In v (users s')).
Proof.
  intros N L Hne. unfold authenticate_user in L. injection L as L.
  apply find_some in L. destruct L as [Hu L].
  apply andb_true_iff in L. destruct L as [Ee Ep].
  apply String.eqb_eq in Ee, Ep.
  unfold update_password.
  rewrite Ep, !String.eqb_refl. simpl.
  apply String.eqb_neq in Hne. rewrite Hne.
  eexists. split; [reflexivity|]. cbn [users transactions].
  assert (N' : NoDup (map u_email (map (set_password email new_password) (users s))))
    by (now rewrite (proj1 (proj2 (set_password_fields email new_password (users s))))).
  assert (Hu' : In (mkUser (u_id u) (u_name u) email new_password)
                   (map (set_password email new_password) (users s))).
  { apply in_map_iff. exists u. split; trivial.
    unfold set_password. rewrite Ee, String.eqb_refl. reflexivity. }
  unfold authenticate_user. cbn [users].
  split; [|split; [|split]].
  - rewrite (find_unique_email email new_password _ _ N' Hu' eq_refl).
    cbn [u_password]. now rewrite String.eqb_refl.
  - intros D.
    rewrite (find_unique_email email password _ _ N' Hu' eq_refl).
    cbn [u_password]. apply String.eqb_neq in D. now rewrite D.
  - reflexivity.
  - intros v Hv D. apply in_map_iff. exists v. split; trivial.
    unfold set_password. apply String.eqb_neq in D. now rewrite D.
Qed.

(** The change is refused, and nothing is written, when the current
    password is not the one of the login, when the two new passwords
    differ, or when the new password is empty; the first failing test
    decides the message. *)
Theorem update_password_refusals (u : user) (email current new confirm : string)
    (s : db amount) :
  exists n s',
    update_password u email current new confirm s = Some (n, s') /\
    (n = PasswordUpdated <->
       current = u_password u /\ new = confirm /\ new <> EmptyString) /\
    (n = CurrentIncorrect <-> current <> u_password u) /\
    (n = NewMismatch <-> current = u_password u /\ new <> confirm) /\
    (n = NewEmpty <->
       current = u_password u /\ new = confirm /\ new = EmptyString) /\
    (n <> PasswordUpdated -> s' = s) /\
    transactions s' = transactions s /\
    map u_id (users s') = map u_id (users s) /\
    map u_email (users s') = map u_email (users s) /\
    map u_name (users s') = map u_name (users s).
Proof.
  unfold update_password.
  destruct (String.eqb_spec current (u_password u)) as [E1|E1]; simpl;
    [destruct (String.eqb_spec new confirm) as [E2|E2]; simpl;
     [destruct (String.eqb_spec new "") as [E3|E3]|]|];
    eexists; eexists; (split; [reflexivity|]); cbn [users transactions];
    try (destruct (set_password_fields email new (users s)) as (-> & -> & ->));
    repeat split; try congruence; try tauto; try discriminate;
    intros; try tauto; try congruence.
Qed.

(** ** Deleting users *)

(** With ids pairwise different, deleting a user offered by the "Delete
    User" tab removes that row only: the user is gone, every login under
    another email answers as before, and so does the login of the
    administrator, whose row the tab never offers. *)
Theorem delete_tab_spares_others (row : Z * string * string) (s : db amount) :
  NoDup (map u_id (users s)) ->
  In row (deletable_users s) ->
  exists s',
    delete_user (fst (fst row)) s = Some (tt, s') /\
    (forall v, In v (users s') -> u_id v <> fst (fst row)) /\
    (forall email password, email <> snd row ->
       exists r, authenticate_user email password s = Some (r, s)
                 /\ authenticate_user email password s' = Some (r, s')) /\
    (forall password,
       exists r, authenticate_user ADMIN_EMAIL password s = Some (r, s)
                 /\ authenticate_user ADMIN_EMAIL password s' = Some (r, s')).
Proof.
  intros N Hrow. apply in_map_iff in Hrow. destruct Hrow as (u & <- & Hu).
  apply filter_In in Hu. destruct Hu as [Hu Ha].
  apply negb_true_iff, String.eqb_neq in Ha. cbn [fst snd].
  assert (K : forall email password, email <> u_email u ->
            find (fun v => String.eqb (u_email v) email
                           && String.eqb (u_password v) password)
                 (filter (fun v => negb (u_id v =? u_id u)) (users s))
            = find (fun v => String.eqb (u_email v) email
                             && String.eqb (u_password v) password)
                   (users s)).
  { intros email password D. apply find_filter_keep. intros v Hv P.
    apply andb_true_iff in P. destruct P as [P _]. apply String.eqb_eq in P.
    apply negb_true_iff, Z.eqb_neq. intros E. apply D. rewrite <- P.
    f_equal. clear - N Hu Hv E.
    induction (users s) as [|x l IH]; [contradiction|].
    simpl in N. inversion N as [|? ? Hx Hl]; subst.
    destruct Hu as [->|Hu]; destruct Hv as [->|Hv]; trivial.
    - exfalso. apply Hx. rewrite <- E. now apply in_map.
    - exfalso. apply Hx. rewrite E. now apply in_map.
    - now apply IH. }
  eexists. split; [reflexivity|]. cbn [users]. split; [|split].
  - intros v Hin. apply filter_In in Hin. destruct Hin as [_ Hin].
    now apply negb_true_iff, Z.eqb_neq in Hin.
  - intros email password D. eexists. split; [reflexivity|].
    unfold authenticate_user. cbn [users]. now rewrite K.
  - intros password. eexists. split; [reflexivity|].
    unfold authenticate_user. cbn [users]. rewrite K; [reflexivity|].
    congruence.
Qed.

(** ** The statement after other operations *)

Variable zero : amount.
Variable add : amount -> amount -> amount.

Lemma in_statement_isoformat (u_of_statement : Z) (lo hi now : datetime)
    (rowid user_id : Z) (a : amount) (type_ description : string) :
  valid now = true -> valid lo = true -> valid hi = true ->
  in_statement u_of_statement (Iso.isoformat lo) (Iso.isoformat hi)
    (mkTransaction rowid user_id a type_ description (Iso.isoformat now))
  = ((user_id =? u_of_statement) && (le lo now && le now hi))%bool.
Proof.
  intros Vn Vlo Vhi. unfold in_statement. cbn [tx_user_id tx_timestamp].
  now rewrite IsoOrder.between_isoformat.
Qed.

(** A transaction recorded at [now] is added to the statement of a user,
    after the rows already listed, exactly when it is a transaction of
    that user and [now] is not before [bill_start] and not after
    [bill_end], compared as datetimes with their times of day. *)
Theorem add_transaction_then_export (u : user) (today now : datetime)
    (user_id : Z) (a : amount) (type_ description : string) (rowid : Z)
    (s : db amount) :
  valid today = true -> start_in_range today -> due_in_range today ->
  valid now = true ->
  exists p items s',
    billing_period today = Some p /\
    export_pdf zero add u today s
    = Some (mkStatement u p items (total_due zero add items), s) /\
    add_transaction user_id a type_ description now rowid s = Some (tt, s') /\
    let items' :=
      items ++
      (if (user_id =? u_id u) && (le (p_start p) now && le now (p_end p))
       then [mkLine a type_ description (Iso.isoformat now)]
       else []) in
    export_pdf zero add u today s'
    = Some (mkStatement u p items' (total_due zero add items'), s').
Proof.
  intros Hv Hs Hd Vn.
  destruct (billing_period_some today Hv Hs Hd)
    as (b & e & d & _ & _ & _ & Ep & Vb & Ve & _).
  exists (mkPeriod b e d). eexists. eexists.
  split; [exact Ep|].
  unfold export_pdf, sql_bind, sql_lift, sql_ret, select_statement.
  rewrite Ep. cbn [p_start p_end].
  split; [reflexivity|]. split; [reflexivity|]. cbv zeta.
  unfold add_transaction. cbn [transactions users].
  rewrite filter_app, map_app. cbn [filter].
  rewrite (in_statement_isoformat (u_id u) b e now) by assumption.
  destruct ((user_id =? u_id u) && (le b now && le now e))%bool; reflexivity.
Qed.

Lemma no_rows_after_delete (user_id : Z) (lo hi : string)
    (l : list (transaction amount)) :
  filter (in_statement user_id lo hi)
    (filter (fun t => negb (tx_user_id t =? user_id)) l) = [].
Proof.
  induction l as [|t l IH]; [reflexivity|]. unfold in_statement in *. simpl.
  destruct (tx_user_id t =? user_id) eqn:Et; simpl; [exact IH|].
  rewrite Et. simpl. exact IH.
Qed.

(** After [delete_user] the statement of the deleted user has no line
    and a total of zero. *)
Theorem delete_user_then_export (u : user) (today : datetime) (s : db amount) :
  valid today = true -> start_in_range today -> due_in_range today ->
  exists p s',
    delete_user (u_id u) s = Some (tt, s') /\
    export_pdf zero add u today s' = Some (mkStatement u p [] zero, s').
Proof.
  intros Hv Hs Hd.
  destruct (export_pdf_some amount zero add u today
              (mkDb (filter (fun v => negb (u_id v =? u_id u)) (users s))
                    (filter (fun t => negb (tx_user_id t =? u_id u))
                            (transactions s))) Hv Hs Hd) as (p & _ & E).
  exists p. eexists. split; [reflexivity|]. cbv zeta in E. rewrite E.
  cbn [transactions]. now rewrite no_rows_after_delete.
Qed.

(** The date cell of a row recorded by [add_transaction] is its timestamp
    to the second: the isoformat of the clock with the microseconds
    dropped. *)
Theorem date_cell_to_the_second (a : amount) (type_ description : string)
    (now : datetime) :
  date_cell (mkLine a type_ description (Iso.isoformat now))
  = Iso.isoformat (mkDatetime (year now) (month now) (day now)
                     (hour now) (minute now) (second now) 0).
Proof.
  unfold date_cell, Iso.isoformat.
  cbn [li_timestamp year month day hour minute second microsecond
       Iso.zpad append substring Z.eqb].
  destruct (microsecond now =? 0); reflexivity.
Qed.

(** ** A transaction recorded at the moment of the export *)

Definition midnight (t : datetime) : bool :=
  (hour t =? 0) && (minute t =? 0) && (second t =? 0) && (microsecond t =? 0).

Ltac compare_cases :=
  repeat match goal with
         | |- context [?x ?= ?y] => destruct (Z.compare_spec x y)
         end.

Lemma bill_start_le_today (today b : datetime) :
  valid today = true -> bill_start today = Some b -> le b today = true.
Proof.
  intros Hv Eb.
  destruct (bill_start_shape today b Hv Eb) as (_ & D13 & T & C).
  unfold time_of in T. injection T as Th Tm Ts Tu.
  unfold le, cmp, fields, lex_compare. rewrite Th, Tm, Ts, Tu, D13.
  rewrite !Z.compare_refl.
  compare_cases; trivial; lia.
Qed.

Lemma today_le_bill_end (today b e : datetime) :
  valid today = true -> bill_start today = Some b -> bill_end b = Some e ->
  le today e = negb ((day today =? 12) && negb (midnight today)).
Proof.
  intros Hv Eb Ee.
  destruct (bill_start_shape today b Hv Eb) as (Vb & D13 & _ & C).
  apply valid_spec in Vb. destruct Vb as [(Yb & Mb & _) _].
  apply valid_spec in Hv. destruct Hv as [(Hy & Hm & Hd) Ht].
  apply check_time_fields_spec in Ht.
  unfold bill_end, new in Ee.
  destruct (check_date_fields _ _ _ && _)%bool; [|discriminate].
  injection Ee as <-.
  assert (Nm : (month b = 12 /\ next_month b = 1)
               \/ (month b < 12 /\ next_month b = month b + 1))
    by (unfold next_month; Z.div_mod_to_equations; lia).
  unfold le, cmp, fields, lex_compare, midnight.
  cbn [year month day hour minute second microsecond].
  destruct (Z.eqb_spec (next_month b) 1) as [E1|E1];
    destruct (Z.eqb_spec (day today) 12) as [E12|E12];
    destruct (Z.eqb_spec (hour today) 0);
    destruct (Z.eqb_spec (minute today) 0);
    destruct (Z.eqb_spec (second today) 0);
    destruct (Z.eqb_spec (microsecond today) 0);
    cbn [andb negb]; compare_cases; trivial; lia.
Qed.

(** A transaction recorded for a user at the very moment of the export
    is on the statement of that user, except when the export is made on
    the 12th after midnight: the window then closed at midnight. *)
Theorem export_right_after_add (u : user) (today : datetime)
    (a : amount) (type_ description : string) (rowid : Z) (s : db amount) :
  valid today = true -> start_in_range today -> due_in_range today ->
  exists p items s',
    billing_period today = Some p /\
    export_pdf zero add u today s
    = Some (mkStatement u p items (total_due zero add items), s) /\
    add_transaction (u_id u) a type_ description today rowid s
    = Some (tt, s') /\
    let items' :=
      items ++
      (if (day today =? 12) && negb (midnight today)
       then []
       else [mkLine a type_ description (Iso.isoformat today)]) in
    export_pdf zero add u today s'
    = Some (mkStatement u p items' (total_due zero add items'), s').
Proof.
  intros Hv Hs Hd.
  destruct (billing_period_some today Hv Hs Hd)
    as (b & e & d & Eb & Ee & _ & Ep & Vb & Ve & _).
  exists (mkPeriod b e d). eexists. eexists.
  split; [exact Ep|].
  unfold export_pdf, sql_bind, sql_lift, sql_ret, select_statement.
  rewrite Ep. cbn [p_start p_end].
  split; [reflexivity|]. split; [reflexivity|]. cbv zeta.
  unfold add_transaction. cbn [transactions users].
  rewrite filter_app, map_app. cbn [filter].
  rewrite (in_statement_isoformat (u_id u) b e today) by assumption.
  rewrite Z.eqb_refl, (bill_start_le_today today b Hv Eb),
    (today_le_bill_end today b e Hv Eb Ee).
  cbn [andb].
  destruct ((day today =? 12) && negb (midnight today))%bool; reflexivity.
Qed.

End OperationFacts.

(** * The operations on the ledger in whole currency units *)

Definition bob : user := mkUser 8 "Bob" "bob@example.com" "hunter2".

Definition refund_row : history_row Z :=
  (2, 20, "credit"%string, "refund"%string, "2024-12-25T18:30:00.125000"%string).

Definition morning_24_dec_2024 : datetime := mkDatetime 2024 12 24 10 0 0 5.

Lemma keys_unique_ledger : keys_unique Z ledger.
Proof.
  unfold keys_unique. simpl.
  repeat split; repeat constructor; simpl; intuition discriminate.
Qed.

Lemma owners_exist_ledger : owners_exist Z ledger.
Proof.
  intros t Ht. simpl in Ht.
  destruct Ht as [<-|[<-|[<-|[<-|[]]]]];
    [exists alice | exists alice | exists alice | exists bob];
    simpl; auto.
Qed.

Lemma keys_stay_unique_witness :
  (forall name email password rowid, fresh_user_id rowid ledger ->
     leaves Z (keys_unique Z) (add_user name email password rowid) ledger) /\
  (forall user_id a type_ description now rowid,
     fresh_transaction_id rowid ledger ->
     leaves Z (keys_unique Z)
       (add_transaction user_id a type_ description now rowid) ledger) /\
  (forall user_id, leaves Z (keys_unique Z) (delete_user user_id) ledger) /\
  (forall user_id transaction_id,
     leaves Z (keys_unique Z)
       (delete_transaction user_id transaction_id) ledger) /\
  (forall u email current new confirm,
     leaves Z (keys_unique Z)
       (update_password u email current new confirm) ledger).
Proof. apply (keys_stay_unique Z ledger). exact keys_unique_ledger. Defined.

Lemma owners_stay_witness :
  (forall user_id, leaves Z (owners_exist Z) (delete_user user_id) ledger) /\
  (forall u a type_ description now rowid, In u (users ledger) ->
     leaves Z (owners_exist Z)
       (add_transaction (u_id u) a type_ description now rowid) ledger) /\
  (forall name email password rowid,
     leaves Z (owners_exist Z) (add_user name email password rowid) ledger) /\
  (forall user_id transaction_id,
     leaves Z (owners_exist Z)
       (delete_transaction user_id transaction_id) ledger) /\
  (forall u email current new confirm,
     leaves Z (owners_exist Z)
       (update_password u email current new confirm) ledger).
Proof. apply (owners_stay Z ledger). exact owners_exist_ledger. Defined.

Lemma delete_from_history_witness :
  exists s' l',
    delete_transaction 7 (fst (fst (fst (fst refund_row)))) ledger
    = Some (tt, s') /\
    get_transactions 7 s' = Some (l', s') /\
    l' = filter (fun r => negb (fst (fst (fst (fst r)))
                                =? fst (fst (fst (fst refund_row)))))
           [to_history groceries; to_history refund; to_history fuel] /\
    ~ In refund_row l' /\
    S (List.length l')
    = List.length [to_history groceries; to_history refund; to_history fuel].
Proof.
  apply (delete_from_history Z 7 refund_row
           [to_history groceries; to_history refund; to_history fuel] ledger).
  - simpl. repeat constructor; simpl; intuition discriminate.
  - reflexivity.
  - simpl. right. left. reflexivity.
Defined.

Lemma update_password_then_login_witness :
  exists s',
    update_password alice "alice@example.com" "secret" "better" "better" ledger
    = Some (PasswordUpdated, s') /\
    authenticate_user "alice@example.com" "better" s'
    = Some (Some (mkUser (u_id alice) (u_name alice)
                         "alice@example.com" "better"), s') /\
    ("better"%string <> "secret"%string ->
     authenticate_user "alice@example.com" "secret" s' = Some (None, s')) /\
    transactions s' = transactions ledger /\
    (forall v, In v (users ledger) ->
       u_email v <> "alice@example.com"%string -> In v (users s')).
Proof.
  apply (update_password_then_login Z alice "alice@example.com" "secret"
           "better" ledger).
  - simpl. repeat constructor; simpl; intuition discriminate.
  - reflexivity.
  - discriminate.
Defined.

Lemma delete_tab_spares_others_witness :
  exists s',
    delete_user (fst (fst (8, "Bob"%string, "bob@example.com"%string))) ledger
    = Some (tt, s') /\
    (forall v, In v (users s') ->
       u_id v <> fst (fst (8, "Bob"%string, "bob@example.com"%string))) /\
    (forall email password,
       email <> snd (8, "Bob"%string, "bob@example.com"%string) ->
       exists r, authenticate_user email password ledger = Some (r, ledger)
                 /\ authenticate_user email password s' = Some (r, s')) /\
    (forall password,
       exists r, authenticate_user ADMIN_EMAIL password ledger
                 = Some (r, ledger)
                 /\ authenticate_user ADMIN_EMAIL password s' = Some (r, s')).
Proof.
  apply (delete_tab_spares_others Z
           (8, "Bob"%string, "bob@example.com"%string) ledger).
  - simpl. repeat constructor; simpl; intuition discriminate.
  - simpl. right. left. reflexivity.
Defined.

Lemma add_transaction_then_export_witness :
  exists p items s',
    billing_period noon_20_dec_2024 = Some p /\
    export_pdf 0 Z.add alice noon_20_dec_2024 ledger
    = Some (mkStatement alice p items (total_due 0 Z.add items), ledger) /\
    add_transaction 7 30 "debit" "books" morning_24_dec_2024 5 ledger
    = Some (tt, s') /\
    let items' :=
      items ++
      (if (7 =? u_id alice)
          && (le (p_start p) morning_24_dec_2024
              && le morning_24_dec_2024 (p_end p))
       then [mkLine 30 "debit" "books" (Iso.isoformat morning_24_dec_2024)]
       else []) in
    export_pdf 0 Z.add alice noon_20_dec_2024 s'
    = Some (mkStatement alice p items' (total_due 0 Z.add items'), s').
Proof.
  apply (add_transaction_then_export Z 0 Z.add alice noon_20_dec_2024
           morning_24_dec_2024 7 30 "debit" "books" 5 ledger).
  - reflexivity.
  - unfold start_in_range, MINYEAR. simpl. lia.
  - unfold due_in_range, MAXYEAR. simpl. lia.
  - reflexivity.
Defined.

Lemma delete_user_then_export_witness :
  exists p s',
    delete_user (u_id alice) ledger = Some (tt, s') /\
    export_pdf 0 Z.add alice noon_20_dec_2024 s'
    = Some (mkStatement alice p [] 0, s').
Proof.
  apply (delete_user_then_export Z 0 Z.add alice noon_20_dec_2024 ledger).
  - reflexivity.
  - unfold start_in_range, MINYEAR. simpl. lia.
  - unfold due_in_range, MAXYEAR. simpl. lia.
Defined.

Lemma export_right_after_add_witness :
  exists p items s',
    billing_period morning_12_mar_2024 = Some p /\
    export_pdf 0 Z.add alice morning_12_mar_2024 ledger
    = Some (mkStatement alice p items (total_due 0 Z.add items), ledger) /\
    add_transaction (u_id alice) 30 "debit" "books" morning_12_mar_2024 5 ledger
    = Some (tt, s') /\
    let items' :=
      items ++
      (if (day morning_12_mar_2024 =? 12) && negb (midnight morning_12_mar_2024)
       then []
       else [mkLine 30 "debit" "books" (Iso.isoformat morning_12_mar_2024)]) in
    export_pdf 0 Z.add alice morning_12_mar_2024 s'
    = Some (mkStatement alice p items' (total_due 0 Z.add items'), s').
Proof.
  apply (export_right_after_add Z 0 Z.add alice morning_12_mar_2024
           30 "debit" "books" 5 ledger).
  - reflexivity.
  - unfold start_in_range, MINYEAR. simpl. lia.
  - unfold due_in_range, MAXYEAR. simpl. lia.
Defined.
